(** * Exchange-rate service: rate cache, provider client and conversion service

    A shallow embedding of the Go packages [config], [internal/cache],
    [internal/client] and [internal/services], followed by the properties
    of the rate cache and of the rate-resolution logic.

    Modelling conventions.
    - Go strings are byte strings ([string], a list of [ascii]).  The
      functions [strings.ToUpper] and [strings.TrimSpace] are modelled on
      their byte-level (ASCII) behaviour: on a string whose bytes are all
      below 0x80 ([gostrings.isASCII]) the model is the library function.
      On other strings the library decodes UTF-8 (it trims Unicode white
      space such as U+00A0 and maps every Unicode letter), which the model
      does not: there it leaves the bytes at or above 0x80 as they are.
      Statements that depend on the difference carry [isASCII] as a
      hypothesis.
    - [float64] is Rocq's primitive binary64 [float].
    - An instant ([time.Time]) is an integer number of nanoseconds since the
      Unix epoch, read in UTC (the container image ships no zone database,
      so [time.Local] is UTC).  The library keeps the seconds of an instant
      in an [int64] and computes [AddDate] modulo 2^64; the model computes
      in the integers, which is the library's result when the seconds fit
      ([gotime.addDateInRange]).  Statements about the bounds of the
      lookback carry that condition as a hypothesis.
    - The program state (package-level configuration variables, the cache
      table, the state of the provider behind the client interface, the
      wall clock) is one record threaded through a state monad.  The field
      [apiLog] is a ghost trace of the calls made through the
      [ExchangeRateAPIClient] interface, with their results.
    - Values returned by [fmt.Errorf] are an inductive type with one
      constructor per call site; [%w] wrapping keeps the cause.
    - Each operation runs from start to end on the state: the lock of the
      table, the goroutine of the refresh loop and its ticker are not
      modelled, and log output is left out. *)

From Stdlib Require Import ZArith Floats Lia Ascii String.
From stdpp Require Import base option list gmap strings.

Local Open Scope string_scope.
Local Open Scope Z_scope.

(** ** Package [strings] of the Go library (byte-level fragment) *)

Module gostrings.

(** The table [asciiSpace]: tab, line feed, vertical tab, form feed,
    carriage return and space. *)
Definition asciiSpace (c : ascii) : bool :=
  let n := N_of_ascii c in
  ((9 <=? n)%N && (n <=? 13)%N) || (n =? 32)%N.

(** [c -= 'a' - 'A'] on the letters ['a'..'z']. *)
Definition upperByte (c : ascii) : ascii :=
  let n := N_of_ascii c in
  if ((97 <=? n)%N && (n <=? 122)%N)%bool then ascii_of_N (n - 32) else c.

Fixpoint ToUpper (s : string) : string :=
  match s with
  | EmptyString => EmptyString
  | String c s' => String (upperByte c) (ToUpper s')
  end.

(** First loop of [TrimSpace]: advance [start] over leading white space. *)
Fixpoint trimStart (s : string) : string :=
  match s with
  | EmptyString => EmptyString
  | String c s' => if asciiSpace c then trimStart s' else s
  end.

(** Second loop of [TrimSpace]: retreat [stop] over trailing white space. *)
Fixpoint trimStop (s : string) : string :=
  match s with
  | EmptyString => EmptyString
  | String c s' =>
      match trimStop s' with
      | EmptyString => if asciiSpace c then EmptyString else String c EmptyString
      | r => String c r
      end
  end.

Definition TrimSpace (s : string) : string := trimStop (trimStart s).

(** The test of the fast paths of [TrimSpace] and [ToUpper]: no byte at or
    above [utf8.RuneSelf] (0x80).  On such strings the two functions above
    are the library's. *)
Fixpoint isASCII (s : string) : bool :=
  match s with
  | EmptyString => true
  | String c s' => (N_of_ascii c <? 128)%N && isASCII s'
  end.

End gostrings.

(** ** Package [time] of the Go library (the calendar fragment in use) *)

Module gotime.

(** Nanoseconds since 1970-01-01T00:00:00Z. *)
Definition Time : Type := Z.

Definition nanosPerDay : Z := 86400 * 1000000000.

Definition isLeap (year : Z) : bool :=
  (year mod 4 =? 0) && (negb (year mod 100 =? 0) || (year mod 400 =? 0)).

(** [daysBefore[m]]: days in a non-leap year before month [m+1]. *)
Definition daysBefore : list Z :=
  [0; 31; 59; 90; 120; 151; 181; 212; 243; 273; 304; 334; 365].

Definition daysBeforeAt (i : Z) : Z := nth (Z.to_nat i) daysBefore 0.

Definition daysIn (m year : Z) : Z :=
  if (m =? 2) && isLeap year then 29
  else daysBeforeAt m - daysBeforeAt (m - 1).

(** Days from 0000-01-01 to January 1st of [year] (proleptic Gregorian
    calendar, [0 <= year]). *)
Definition daysBeforeYear (year : Z) : Z :=
  365 * year + (year + 3) / 4 - (year + 99) / 100 + (year + 399) / 400.

(** [time.Date(year, month, day, 0, 0, 0, 0, time.UTC)] for a month in
    1..12. *)
Definition Date (year month day : Z) : Time :=
  let d := daysBeforeYear year - daysBeforeYear 1970 in
  let d := d + daysBeforeAt (month - 1) in
  let d := if isLeap year && (3 <=? month) then d + 1 else d in
  let d := d + (day - 1) in
  d * nanosPerDay.

Definition digit (c : ascii) : option Z :=
  let n := N_of_ascii c in
  if ((48 <=? n)%N && (n <=? 57)%N)%bool then Some (Z.of_N n - 48) else None.

(** Layout element [2006]: exactly four digits. *)
Definition getYear (value : string) : option (Z * string) :=
  match value with
  | String a (String b (String c (String d rest))) =>
      match digit a, digit b, digit c, digit d with
      | Some x3, Some x2, Some x1, Some x0 =>
          Some (1000 * x3 + 100 * x2 + 10 * x1 + x0, rest)
      | _, _, _, _ => None
      end
  | _ => None
  end.

(** [getnum(s, true)]: exactly two digits. *)
Definition getnum (s : string) : option (Z * string) :=
  match s with
  | String a (String b rest) =>
      match digit a, digit b with
      | Some x1, Some x0 => Some (x1 * 10 + x0, rest)
      | _, _ => None
      end
  | _ => None
  end.

(** [skip(value, "-")]. *)
Definition skipDash (value : string) : option string :=
  match value with
  | String c rest => if Ascii.eqb c "-"%char then Some rest else None
  | EmptyString => None
  end.

(** [time.Parse("2006-01-02", value)]; [None] stands for a non-nil error. *)
Definition Parse (value : string) : option Time :=
  match getYear value with
  | None => None
  | Some (year, value) =>
  match skipDash value with
  | None => None
  | Some value =>
  match getnum value with
  | None => None
  | Some (month, value) =>
  if (month <=? 0) || (12 <? month) then None else
  match skipDash value with
  | None => None
  | Some value =>
  match getnum value with
  | None => None
  | Some (day, value) =>
  match value with
  | String _ _ => None
  | EmptyString =>
      if (day <? 1) || (daysIn month year <? day) then None
      else Some (Date year month day)
  end end end end end end.

Definition After (t u : Time) : bool := u <? t.
Definition Before (t u : Time) : bool := t <? u.

(** [t.AddDate(0, 0, days)] in UTC, computed in the integers.  The
    library goes through [Date], which computes the seconds of the result
    modulo 2^64: this is its result when [addDateInRange] holds. *)
Definition AddDays (t : Time) (days : Z) : Time := t + days * nanosPerDay.

(** [unixToInternal]: the seconds from January 1st of year 1 to the Unix
    epoch. *)
Definition unixToInternal : Z := (1969 * 365 + 1969 / 4 - 1969 / 100 + 1969 / 400) * 86400.

(** The seconds of an instant since January 1st of year 1, the field [ext]
    of a [Time] without a monotonic reading. *)
Definition sec (t : Time) : Z := t / 1000000000 + unixToInternal.

(** The seconds of the instant fit in an [int64]. *)
Definition representable (t : Time) : bool :=
  (- 2 ^ 63 <=? sec t) && (sec t <? 2 ^ 63).

(** [t.AddDate(0, 0, days)] does not wrap around: the instant and the
    shifted instant are both representable. *)
Definition addDateInRange (t : Time) (days : Z) : bool :=
  representable t && representable (AddDays t days).

End gotime.

(** ** Package [strconv] of the Go library: [Atoi] *)

Module gostrconv.

(** The value of a run of decimal digits read after [n]; [None] when a
    byte is not a digit. *)
Fixpoint digitsValue (s : string) (n : Z) : option Z :=
  match s with
  | EmptyString => Some n
  | String ch s' =>
      match gotime.digit ch with
      | Some d => digitsValue s' (n * 10 + d)
      | None => None
      end
  end.

(** [strconv.Atoi] on a 64-bit platform; [None] stands for a syntax or a
    range error.  An optional sign, then at least one digit and digits
    only, denoting a value that fits [int]. *)
Definition Atoi (s : string) : option Z :=
  match s with
  | EmptyString => None
  | String c rest =>
      let neg := Ascii.eqb c "-" in
      let digits := if Ascii.eqb c "-" || Ascii.eqb c "+" then rest else s in
      match digits with
      | EmptyString => None
      | String _ _ =>
          match digitsValue digits 0 with
          | None => None
          | Some un =>
              let n := if neg then - un else un in
              if (- 2 ^ 63 <=? n) && (n <=? 2 ^ 63 - 1) then Some n else None
          end
      end
  end.

End gostrconv.

(** ** Package [config] *)

Module config.

Definition MaxAllowedHistoryDays : Z := 90.

Definition SupportedCurrencyList : list string :=
  ["USD"; "INR"; "EUR"; "JPY"; "GBP"].

(** The package-level variables set once by [initializeGlobalConfig]. *)
Record Globals := mkGlobals {
  ExternalAPIBaseURL : string;
  ExchangeRateAPIKey : string;
  MaxHistoricalDays : Z
}.

(** The values [initializeGlobalConfig] gives when the environment sets
    none of the three variables. *)
Definition defaultGlobals : Globals :=
  {| ExternalAPIBaseURL := "https://v6.exchangerate-api.com/v6";
     ExchangeRateAPIKey := "dc07747379a8a53ee8d3243c";
     MaxHistoricalDays := MaxAllowedHistoryDays |}.

Fixpoint linearSearch (cleanCode : string) (l : list string) : bool :=
  match l with
  | [] => false
  | supportedCode :: l' =>
      if String.eqb supportedCode cleanCode then true
      else linearSearch cleanCode l'
  end.

Definition IsSupportedCurrency (code : string) : bool :=
  let cleanCode := gostrings.ToUpper (gostrings.TrimSpace code) in
  if String.eqb cleanCode "" then false
  else linearSearch cleanCode SupportedCurrencyList.

Definition GetSupportedCurrencies : list string := SupportedCurrencyList.

(** The environment of the process: [os.Getenv], which gives the empty
    string for a variable that is not set. *)
Definition Environ : Type := string -> string.

Definition getEnv (env : Environ) (key defaultValue : string) : string :=
  let value := env key in
  if negb (String.eqb value "") then value else defaultValue.

Definition getIntEnv (env : Environ) (key : string) (defaultValue : Z) : Z :=
  let value := env key in
  if negb (String.eqb value "") then
    match gostrconv.Atoi value with
    | Some intVal => intVal
    | None => defaultValue
    end
  else defaultValue.

(** [initializeGlobalConfig]; [None] stands for the exit through
    [log.Fatal]. *)
Definition initializeGlobalConfig (env : Environ) : option Globals :=
  let url := getEnv env "EXCHANGE_API_BASE_URL" "https://v6.exchangerate-api.com/v6" in
  let key := getEnv env "EXCHANGE_API_KEY" "dc07747379a8a53ee8d3243c" in
  let days := getIntEnv env "MAX_HISTORICAL_DAYS" MaxAllowedHistoryDays in
  if String.eqb key "" then None else Some (mkGlobals url key days).

End config.

(** ** Errors and results *)

(** One constructor per [fmt.Errorf] call site; [External] is an error value
    produced outside the repository (the HTTP transport, a stand-in
    provider). *)
Inductive error : Type :=
  | External (msg : string)
  (* package services *)
  | UnsupportedSource (code : string)
  | UnsupportedTarget (code : string)
  | NegativeAmount (amt : float)
  | ExchangeRateFailed (cause : error)
  | HistoricalFetchFailed (cause : error)
  | DateEmpty
  | BadDateFormat (dateStr : string)
  | DateInFuture (dateStr : string)
  | DateTooFarPast (maxDays : Z)
  (* package client *)
  | FailedAfterTries (tries : Z) (cause : error)
  | HttpReqFailed (cause : error)
  | ApiHttpStatus (code : Z) (body : string)
  | ReadBodyFailed (cause : error)
  | JsonParseFailed (cause : error)
  | ApiError (result : string)
  | InvalidRate (rate : float).

(** A Go result pair [(value, err)]: [Ok v] is [(v, nil)], [Err e] is
    [(zero, e)]. *)
Inductive result (A : Type) : Type :=
  | Ok (a : A)
  | Err (e : error).
Arguments Ok {A} a.
Arguments Err {A} e.

(** ** The provider interface *)

Module api.

(** [ExchangeRateAPIClient], declared alike in the packages [cache] and
    [services]: one method [GetRate(fromCurrency, toCurrency, dateStr)].
    An implementation acts on its own state [P] and may read the
    configuration variables. *)
Class ExchangeRateAPIClient (P : Type) :=
  GetRate : config.Globals -> string -> string -> string -> P -> result float * P.

End api.

(** ** Program state *)

Record rateEntry := mkRateEntry {
  exchangeRate : float;
  lastUpdated : gotime.Time
}.

(** One call through the provider interface:
    [(fromCurrency, toCurrency, dateStr, result)]. *)
Definition ApiCall : Type := string * string * string * result float.

Record World (P : Type) := mkWorld {
  globals : config.Globals;
  rateData : gmap string rateEntry;
  provider : P;
  apiLog : list ApiCall;
  (** the successive readings of the wall clock, and how many were taken *)
  clock : nat -> gotime.Time;
  reads : nat
}.
Arguments mkWorld {P}.
Arguments globals {P}.
Arguments rateData {P}.
Arguments provider {P}.
Arguments apiLog {P}.
Arguments clock {P}.
Arguments reads {P}.

Definition withRateData {P} (m : gmap string rateEntry) (w : World P) : World P :=
  mkWorld (globals w) m (provider w) (apiLog w) (clock w) (reads w).

(** The state monad of the program. *)
Definition M (P A : Type) : Type := World P -> A * World P.

#[global] Instance M_ret {P} : MRet (M P) := fun A a w => (a, w).
#[global] Instance M_bind {P} : MBind (M P) :=
  fun A B f m w => let '(a, w') := m w in f a w'.

Definition getGlobals {P} : M P config.Globals := fun w => (globals w, w).

(** [time.Now()]: the next reading of the clock. *)
Definition Now {P} : M P gotime.Time :=
  fun w => (clock w (reads w),
            mkWorld (globals w) (rateData w) (provider w) (apiLog w) (clock w) (S (reads w))).

(** The map assignment [rateData[cacheKey] = entry]. *)
Definition storeEntry {P} (cacheKey : string) (entry : rateEntry) : M P unit :=
  fun w => (tt, withRateData (<[cacheKey := entry]> (rateData w)) w).

(** A call of the interface method [GetRate] on the configured client. *)
Definition callGetRate {P} {apiClient : api.ExchangeRateAPIClient P}
    (fromCurrency toCurrency dateStr : string) : M P (result float) :=
  fun w =>
    let '(r, p') := api.GetRate (globals w) fromCurrency toCurrency dateStr (provider w) in
    (r, mkWorld (globals w) (rateData w) p'
          (apiLog w ++ [(fromCurrency, toCurrency, dateStr, r)]) (clock w) (reads w)).

(** ** Package [internal/cache] *)

Module cache.

Definition buildRateKey (from to : string) : string :=
  let fromClean := gostrings.ToUpper (gostrings.TrimSpace from) in
  let toClean := gostrings.ToUpper (gostrings.TrimSpace to) in
  fromClean ++ "-" ++ toClean.

(** [NewExchangeRateCache]: an empty table. *)
Definition NewExchangeRateCache {P} (g : config.Globals) (apiClient : P)
    (clk : nat -> gotime.Time) : World P :=
  mkWorld g ∅ apiClient [] clk O.

Definition GetRate {P} (fromCurrency toCurrency : string) : M P (float * bool) :=
  fun w =>
    let cacheKey := buildRateKey fromCurrency toCurrency in
    match rateData w !! cacheKey with
    | None => ((0%float, false), w)
    | Some entry => ((exchangeRate entry, true), w)
    end.

Definition SetRate {P} (fromCurrency toCurrency : string) (rate : float) : M P unit :=
  let cacheKey := buildRateKey fromCurrency toCurrency in
  now ← Now;
  storeEntry cacheKey (mkRateEntry rate now).

(** The counters and the list that [refreshAllRates] logs at the end. *)
Record refreshStats := mkStats {
  successfulUpdates : Z;
  totalPairs : Z;
  failedPairs : list string
}.

Section refresh.
Context {P : Type} {exchangeAPIClient : api.ExchangeRateAPIClient P}.

(** The body of the inner loop for one pair with [i != j]. *)
Definition refreshPair (fromCurrency toCurrency : string) (st : refreshStats)
    : M P refreshStats :=
  let totalPairs := totalPairs st + 1 in
  let pairIdentifier := fromCurrency ++ "-" ++ toCurrency in
  r ← callGetRate fromCurrency toCurrency "";
  match r with
  | Err _ =>
      mret (mkStats (successfulUpdates st) totalPairs
                    (failedPairs st ++ [pairIdentifier]))
  | Ok exchangeRate =>
      SetRate fromCurrency toCurrency exchangeRate;;
      mret (mkStats (successfulUpdates st + 1) totalPairs (failedPairs st))
  end.

(** [for j, toCurrency := range supportedCurrencies], from index [j]. *)
Fixpoint innerLoop (i : nat) (fromCurrency : string) (j : nat)
    (rest : list string) (st : refreshStats) : M P refreshStats :=
  match rest with
  | [] => mret st
  | toCurrency :: rest' =>
      if Nat.eqb i j then innerLoop i fromCurrency (S j) rest' st
      else
        st' ← refreshPair fromCurrency toCurrency st;
        innerLoop i fromCurrency (S j) rest' st'
  end.

(** [for i, fromCurrency := range supportedCurrencies], from index [i]. *)
Fixpoint outerLoop (supportedCurrencies : list string) (i : nat)
    (rest : list string) (st : refreshStats) : M P refreshStats :=
  match rest with
  | [] => mret st
  | fromCurrency :: rest' =>
      st' ← innerLoop i fromCurrency O supportedCurrencies st;
      outerLoop supportedCurrencies (S i) rest' st'
  end.

Definition refreshAllRates : M P refreshStats :=
  let supportedCurrencies := config.GetSupportedCurrencies in
  outerLoop supportedCurrencies O supportedCurrencies (mkStats 0 0 []).

End refresh.

(** The zero [time.Time]: January 1, year 1, 00:00:00 UTC. *)
Definition zeroTime : gotime.Time := -62135596800 * 1000000000.

(** What [GetCacheStats] returns: the entry "total_pairs", and the entries
    "oldest_update" and "newest_update" when the table is not empty. *)
Record cacheStats := mkCacheStats {
  total_pairs : Z;
  oldest_update : option gotime.Time;
  newest_update : option gotime.Time
}.

(** The loop [for _, entry := range cache.rateData] over the entries in
    the order in which the map yields them. *)
Fixpoint statsLoop (entries : list rateEntry) (isFirstEntry : bool)
    (oldestUpdate newestUpdate : gotime.Time) : gotime.Time * gotime.Time :=
  match entries with
  | [] => (oldestUpdate, newestUpdate)
  | entry :: rest =>
      if isFirstEntry then
        statsLoop rest false (lastUpdated entry) (lastUpdated entry)
      else
        let oldestUpdate :=
          if gotime.Before (lastUpdated entry) oldestUpdate then lastUpdated entry
          else oldestUpdate in
        let newestUpdate :=
          if gotime.After (lastUpdated entry) newestUpdate then lastUpdated entry
          else newestUpdate in
        statsLoop rest false oldestUpdate newestUpdate
  end.

(** [GetCacheStats] when the map is ranged over in the order [order]. *)
Definition GetCacheStatsOver (order : list (string * rateEntry)) : cacheStats :=
  let total := Z.of_nat (length order) in
  if 0 <? total then
    let '(oldestUpdate, newestUpdate) := statsLoop (snd <$> order) true zeroTime zeroTime in
    mkCacheStats total (Some oldestUpdate) (Some newestUpdate)
  else mkCacheStats total None None.

(** Go leaves the order of a [range] over a map open; here it is the
    order of [map_to_list]. *)
Definition GetCacheStats {P} : M P cacheStats :=
  fun w => (GetCacheStatsOver (map_to_list (rateData w)), w).

End cache.

(** ** Package [internal/client] *)

Module client.

(** What [HTTPClient.Get] hands back for one request: an error, or a
    response with its status code and what [io.ReadAll] gives for its
    body (the bytes read and, possibly, a read error). *)
Inductive HttpReply : Type :=
  | GetFailed (cause : error)
  | Response (StatusCode : Z) (body : string) (readErr : option error).

(** The network as the client sees it: the reply to the [n]-th request
    for a URL, and the requests sent so far. *)
Record Net := mkNet {
  respond : nat -> string -> HttpReply;
  requests : list string
}.

(** The fields of [apiResp] that the client reads. *)
Record apiResp := mkApiResp {
  Result : string;
  ConversionRate : float
}.

Definition maxRetries : Z := 2.

(** [HTTPClient.Get] / [doRequest]. *)
Definition Get (baseURL endpoint : string) (net : Net) : HttpReply * Net :=
  let url := baseURL ++ endpoint in
  (respond net (length (requests net)) url,
   mkNet (respond net) (requests net ++ [url])).

(** [buildEndpoint]: the date is not used. *)
Definition buildEndpoint (g : config.Globals) (from to dt : string) : string :=
  "/" ++ config.ExchangeRateAPIKey g ++ "/pair/" ++ from ++ "/" ++ to ++ "/1".

Section decoder.
(** [json.Unmarshal(body, &response)] of the Go library. *)
Variable json_Unmarshal : string -> result apiResp.

Definition doAPICall (g : config.Globals) (from to dt : string) (net : Net)
    : result float * Net :=
  let endpoint := buildEndpoint g from to dt in
  let '(reply, net) := Get (config.ExternalAPIBaseURL g) endpoint net in
  match reply with
  | GetFailed err => (Err (HttpReqFailed err), net)
  | Response StatusCode body readErr =>
      if negb (StatusCode =? 200) then (Err (ApiHttpStatus StatusCode body), net)
      else
        match readErr with
        | Some err => (Err (ReadBodyFailed err), net)
        | None =>
            match json_Unmarshal body with
            | Err err => (Err (JsonParseFailed err), net)
            | Ok response =>
                if negb (String.eqb (Result response) "success")
                then (Err (ApiError (Result response)), net)
                else if PrimFloat.leb (ConversionRate response) 0
                then (Err (InvalidRate (ConversionRate response)), net)
                else (Ok (ConversionRate response), net)
            end
        end
  end.

(** The loop [for i := 1; i <= maxRetries; i++] with [remaining]
    iterations to go; the pause between two tries changes no state. *)
Fixpoint retryLoop (remaining : nat) (lastErr : option error)
    (g : config.Globals) (from to date : string) (net : Net)
    : result float * Net :=
  match remaining with
  | O =>
      (Err (FailedAfterTries maxRetries
              (match lastErr with
               | Some err => err
               | None => External "%!w(<nil>)"
               end)), net)
  | S remaining' =>
      match doAPICall g from to date net with
      | (Ok rate, net') => (Ok rate, net')
      | (Err err, net') => retryLoop remaining' (Some err) g from to date net'
      end
  end.

Definition GetRate (g : config.Globals) (from to date : string) (net : Net)
    : result float * Net :=
  retryLoop (Z.to_nat maxRetries) None g from to date net.

(** [*RateClient] implements the provider interface. *)
Definition RateClient : api.ExchangeRateAPIClient Net := GetRate.

End decoder.

End client.

(** ** Package [internal/services] *)

Module services.

Section service.
Context {P : Type} {apiClient : api.ExchangeRateAPIClient P}.

Definition validateCurrencyPair (fromCurrency toCurrency : string) : option error :=
  if negb (config.IsSupportedCurrency fromCurrency)
  then Some (UnsupportedSource fromCurrency)
  else if negb (config.IsSupportedCurrency toCurrency)
  then Some (UnsupportedTarget toCurrency)
  else None.

Definition validateAndParseDate (dateStr : string) : M P (result gotime.Time) :=
  if String.eqb dateStr "" then mret (Err DateEmpty)
  else
    match gotime.Parse dateStr with
    | None => mret (Err (BadDateFormat dateStr))
    | Some parsedDate =>
        now ← Now;
        if gotime.After parsedDate now then mret (Err (DateInFuture dateStr))
        else mret (Ok parsedDate)
    end.

Definition validateHistoricalRange (requestedDate : gotime.Time) : M P (option error) :=
  now ← Now;
  g ← getGlobals;
  let oldestAllowedDate := gotime.AddDays now (- config.MaxHistoricalDays g) in
  if gotime.Before requestedDate oldestAllowedDate
  then mret (Some (DateTooFarPast (config.MaxHistoricalDays g)))
  else mret None.

Definition getExchangeRateForPair (fromCurrency toCurrency dateStr : string)
    : M P (result float) :=
  if negb (String.eqb dateStr "") then
    d ← validateAndParseDate dateStr;
    match d with
    | Err err => mret (Err err)
    | Ok parsedDate =>
        v ← validateHistoricalRange parsedDate;
        match v with
        | Some err => mret (Err err)
        | None => callGetRate fromCurrency toCurrency dateStr
        end
    end
  else
    c ← cache.GetRate fromCurrency toCurrency;
    if (c : float * bool).2 then mret (Ok c.1)
    else
      r ← callGetRate fromCurrency toCurrency "";
      match r with
      | Err err => mret (Err err)
      | Ok rate =>
          cache.SetRate fromCurrency toCurrency rate;;
          mret (Ok rate)
      end.

Definition ConvertCurrencyAmount (from to : string) (amt : float) (dt : string)
    : M P (result float) :=
  match validateCurrencyPair from to with
  | Some err => mret (Err err)
  | None =>
      if PrimFloat.ltb amt 0 then mret (Err (NegativeAmount amt))
      else if String.eqb from to then mret (Ok amt)
      else
        r ← getExchangeRateForPair from to dt;
        match r with
        | Err err => mret (Err (ExchangeRateFailed err))
        | Ok rate => mret (Ok (PrimFloat.mul amt rate))
        end
  end.

Definition GetHistoricalExchangeRate (fromCurrency toCurrency dateStr : string)
    : M P (result float) :=
  match validateCurrencyPair fromCurrency toCurrency with
  | Some err => mret (Err err)
  | None =>
      if String.eqb fromCurrency toCurrency then mret (Ok 1%float)
      else
        d ← validateAndParseDate dateStr;
        match d with
        | Err err => mret (Err err)
        | Ok parsedDate =>
            v ← validateHistoricalRange parsedDate;
            match v with
            | Some err => mret (Err err)
            | None =>
                r ← callGetRate fromCurrency toCurrency dateStr;
                match r with
                | Err err => mret (Err (HistoricalFetchFailed err))
                | Ok historicalRate => mret (Ok historicalRate)
                end
            end
        end
  end.

End service.

End services.

(** ** Definitions used by the statements *)

(** The normal form of a currency code: upper case, trimmed. *)
Definition normalize (code : string) : string :=
  gostrings.ToUpper (gostrings.TrimSpace code).

(** White space only (the six bytes of the table [asciiSpace]). *)
Fixpoint blank (s : string) : bool :=
  match s with
  | EmptyString => true
  | String c s' => gostrings.asciiSpace c && blank s'
  end.

(** The lower-case letter of an upper-case letter. *)
Definition lowerOf (c : ascii) : ascii := ascii_of_N (N_of_ascii c + 32).

(** [s] spells [code], letter by letter, each letter in either case
    ([code] is in upper case). *)
Fixpoint caseVariant (s code : string) : bool :=
  match s, code with
  | EmptyString, EmptyString => true
  | String a s', String b code' =>
      (Ascii.eqb a b || Ascii.eqb a (lowerOf b)) && caseVariant s' code'
  | _, _ => false
  end.

(** A string without white space. *)
Fixpoint spaceFree (s : string) : bool :=
  match s with
  | EmptyString => true
  | String c s' => negb (gostrings.asciiSpace c) && spaceFree s'
  end.

(** An upper-case letter, and a string of upper-case letters. *)
Definition upperLetter (c : ascii) : bool :=
  ((65 <=? N_of_ascii c)%N && (N_of_ascii c <=? 90)%N)%bool.

Fixpoint upperLetters (s : string) : bool :=
  match s with
  | EmptyString => true
  | String c s' => upperLetter c && upperLetters s'
  end.

(** A string that does not begin with white space. *)
Definition startsClean (s : string) : Prop :=
  match s with
  | EmptyString => True
  | String c _ => gostrings.asciiSpace c = false
  end.

(** The error taxonomy of the specification, and the kind of each error
    value of the code.  A wrapped error has the kind of its cause. *)
Inductive ErrorKind : Type :=
  | UnsupportedCurrency
  | InvalidAmount
  | InvalidDateFormat
  | FutureDate
  | DateOutOfRange
  | ProviderUnavailable
  | InvalidProviderRate.

Fixpoint errorKind (e : error) : ErrorKind :=
  match e with
  | External _ => ProviderUnavailable
  | UnsupportedSource _ | UnsupportedTarget _ => UnsupportedCurrency
  | NegativeAmount _ => InvalidAmount
  | ExchangeRateFailed cause | HistoricalFetchFailed cause => errorKind cause
  | DateEmpty | BadDateFormat _ => InvalidDateFormat
  | DateInFuture _ => FutureDate
  | DateTooFarPast _ => DateOutOfRange
  | FailedAfterTries _ cause => errorKind cause
  | HttpReqFailed _ | ApiHttpStatus _ _ | ReadBodyFailed _
  | JsonParseFailed _ | ApiError _ => ProviderUnavailable
  | InvalidRate _ => InvalidProviderRate
  end.

(** A decimal digit, and its value. *)
Definition isDigitChar (c : ascii) : bool :=
  ((48 <=? N_of_ascii c)%N && (N_of_ascii c <=? 57)%N)%bool.

Definition digitValue (c : ascii) : Z := Z.of_N (N_of_ascii c) - 48.

(** The length of a month of the Gregorian calendar. *)
Definition daysInMonth (year month : Z) : Z :=
  if month =? 2 then (if gotime.isLeap year then 29 else 28)
  else if (month =? 4) || (month =? 6) || (month =? 9) || (month =? 11) then 30
  else 31.

(** A calendar date as the specification words it: four digits for the
    year, two for the month, two for the day, hyphens between them, a
    month from 1 to 12 and a day that the month of that year has. *)
Definition isCalendarDate (s : string) : bool :=
  match s with
  | String y3 (String y2 (String y1 (String y0 (String h1
      (String m1 (String m0 (String h2 (String d1 (String d0 EmptyString))))))))) =>
      let year := 1000 * digitValue y3 + 100 * digitValue y2
                  + 10 * digitValue y1 + digitValue y0 in
      let month := 10 * digitValue m1 + digitValue m0 in
      let day := 10 * digitValue d1 + digitValue d0 in
      forallb isDigitChar [y3; y2; y1; y0; m1; m0; d1; d0]
      && Ascii.eqb h1 "-" && Ascii.eqb h2 "-"
      && (1 <=? month) && (month <=? 12)
      && (1 <=? day) && (day <=? daysInMonth year month)
  | _ => false
  end.

(** The conditions under which [GetHistoricalExchangeRate] gets past its
    validation: supported codes, given as two different strings, and a
    calendar date not after the first reading of the clock and not more
    than the configured number of days before the second. *)
Definition historicalValid {P} (from to dateStr : string) (w : World P) : Prop :=
  config.IsSupportedCurrency from = true
  /\ config.IsSupportedCurrency to = true
  /\ from <> to
  /\ exists parsedDate,
       gotime.Parse dateStr = Some parsedDate
       /\ parsedDate <= clock w (reads w)
       /\ clock w (S (reads w)) - config.MaxHistoricalDays (globals w) * gotime.nanosPerDay
          <= parsedDate.


(** *** The refresh sweep, pair by pair *)

(** The pairs for which the body of the inner loop runs, in the order of
    the two loops (the indices differ). *)
Fixpoint innerPairs (i : nat) (fromCurrency : string) (j : nat) (rest : list string)
    : list (string * string) :=
  match rest with
  | [] => []
  | toCurrency :: rest' =>
      if Nat.eqb i j then innerPairs i fromCurrency (S j) rest'
      else (fromCurrency, toCurrency) :: innerPairs i fromCurrency (S j) rest'
  end.

Fixpoint outerPairs (supportedCurrencies : list string) (i : nat) (rest : list string)
    : list (string * string) :=
  match rest with
  | [] => []
  | fromCurrency :: rest' =>
      innerPairs i fromCurrency O supportedCurrencies
      ++ outerPairs supportedCurrencies (S i) rest'
  end.

Definition sweepPairs (supportedCurrencies : list string) : list (string * string) :=
  outerPairs supportedCurrencies O supportedCurrencies.

(** The loop body run over a list of pairs. *)
Fixpoint sweep {P} {exchangeAPIClient : api.ExchangeRateAPIClient P}
    (pairs : list (string * string)) (st : cache.refreshStats) : M P cache.refreshStats :=
  match pairs with
  | [] => mret st
  | (fromCurrency, toCurrency) :: pairs' =>
      st' ← cache.refreshPair fromCurrency toCurrency st;
      sweep pairs' st'
  end.

(** The answers of the provider when it is asked for the latest rate of
    each pair in turn. *)
Fixpoint providerRun {P} {exchangeAPIClient : api.ExchangeRateAPIClient P}
    (g : config.Globals) (pairs : list (string * string)) (p : P)
    : list (result float) * P :=
  match pairs with
  | [] => ([], p)
  | (fromCurrency, toCurrency) :: pairs' =>
      let '(r, p') := api.GetRate g fromCurrency toCurrency "" p in
      let '(rs, p'') := providerRun g pairs' p' in
      (r :: rs, p'')
  end.

(** The log entries of such a run, and the keys of the pairs answered
    with a rate. *)
Fixpoint callsOf (pairs : list (string * string)) (answers : list (result float))
    : list ApiCall :=
  match pairs, answers with
  | (fromCurrency, toCurrency) :: pairs', r :: answers' =>
      (fromCurrency, toCurrency, "", r) :: callsOf pairs' answers'
  | _, _ => []
  end.

Fixpoint successKeys (pairs : list (string * string)) (answers : list (result float))
    : list string :=
  match pairs, answers with
  | (fromCurrency, toCurrency) :: pairs', Ok _ :: answers' =>
      cache.buildRateKey fromCurrency toCurrency :: successKeys pairs' answers'
  | _ :: pairs', Err _ :: answers' => successKeys pairs' answers'
  | _, _ => []
  end.

Definition pairKey (pair : string * string) : string :=
  cache.buildRateKey pair.1 pair.2.

(** The number of rates among the answers. *)
Fixpoint countOk (answers : list (result float)) : Z :=
  match answers with
  | [] => 0
  | Ok _ :: answers' => 1 + countOk answers'
  | Err _ :: answers' => countOk answers'
  end.

(** *** Reachable states *)

Section reachability.
Context {P : Type} {apiClient : api.ExchangeRateAPIClient P}.

(** One operation of the core: a conversion, a historical lookup, a cache
    lookup, a whole refresh sweep, or the refresh of one pair (the sweep
    runs beside the requests). *)
Inductive step : World P -> World P -> Prop :=
  | step_convert from to amt dt w :
      step w (services.ConvertCurrencyAmount from to amt dt w).2
  | step_historical from to dateStr w :
      step w (services.GetHistoricalExchangeRate from to dateStr w).2
  | step_lookup from to w :
      step w (cache.GetRate from to w).2
  | step_refresh w :
      step w (cache.refreshAllRates w).2
  | step_refresh_pair from to st w :
      step w (cache.refreshPair from to st w).2.

(** The states reached from a new, empty cache. *)
Inductive reachable : World P -> Prop :=
  | reach_new g p clk : reachable (cache.NewExchangeRateCache g p clk)
  | reach_step w w' : reachable w -> step w w' -> reachable w'.

(** Between [w] and [w'] the provider was called some more times, and
    every key of the table holds what it held, or the positive rate of one
    of these calls that succeeded for a pair with that key. *)
Definition onlySuccessfulFetches (w w' : World P) : Prop :=
  exists calls,
    apiLog w' = (apiLog w ++ calls)%list
    /\ forall key,
         rateData w' !! key = rateData w !! key
         \/ exists from to rate t,
              key = cache.buildRateKey from to
              /\ (from, to, "", Ok rate) ∈ calls
              /\ PrimFloat.ltb 0 rate = true
              /\ rateData w' !! key = Some (mkRateEntry rate t).

(** Every entry of the table holds a positive rate that the provider gave
    for a pair with the key of the entry. *)
Definition tableInvariant (w : World P) : Prop :=
  forall key entry,
    rateData w !! key = Some entry ->
    PrimFloat.ltb 0 (exchangeRate entry) = true
    /\ exists from to,
         cache.buildRateKey from to = key
         /\ (from, to, "", Ok (exchangeRate entry)) ∈ apiLog w.

(** The rates the provider answers with are positive. *)
Definition providerPositive : Prop :=
  forall g from to dateStr p rate p',
    api.GetRate g from to dateStr p = (Ok rate, p') -> PrimFloat.ltb 0 rate = true.

End reachability.

(** The decoder yields numbers: a JSON document has no notation for a
    value that is not a number. *)
Definition decodesNumbers (json_Unmarshal : string -> result client.apiResp) : Prop :=
  forall body response,
    json_Unmarshal body = Ok response ->
    PrimFloat.is_nan (client.ConversionRate response) = false.

(** A decoder for two documents, for the examples. *)
Definition toyDecoder (body : string) : result client.apiResp :=
  if String.eqb body "half" then Ok (client.mkApiResp "success" 0.5%float)
  else if String.eqb body "zero" then Ok (client.mkApiResp "success" 0%float)
  else Err (External "unexpected end of JSON input").

(** A network that answers every request with the document "half". *)
Definition halfNet : client.Net :=
  client.mkNet (fun _ _ => client.Response 200 "half" None) [].

(** A stand-in provider that counts nothing and knows nothing: it gives
    the answers of a script, one per call, and fails once the script is
    used up. *)
#[global] Instance scripted : api.ExchangeRateAPIClient (list (result float)) :=
  fun _ _ _ _ script =>
    match script with
    | [] => (Err (External "no answer"), [])
    | r :: rest => (r, rest)
    end.

(** A fresh service over the scripted provider, with default
    configuration, whose clock reads [t0], [t0 + 1], ... nanoseconds. *)
Definition freshWorld (script : list (result float)) (t0 : gotime.Time)
    : World (list (result float)) :=
  cache.NewExchangeRateCache config.defaultGlobals script (fun n => t0 + Z.of_nat n).

(** 2025-06-15T12:00:00Z. *)
Definition noon_2025_06_15 : gotime.Time :=
  20254 * gotime.nanosPerDay + 12 * 3600 * 1000000000.

From Stdlib Require DecimalString.

(** ** Further definitions used by the statements *)

(** A string without a hyphen. *)
Fixpoint hyphenFree (s : string) : bool :=
  match s with
  | EmptyString => true
  | String c s' => negb (Ascii.eqb c "-") && hyphenFree s'
  end.

(** The identifiers that a sweep puts on its list of failed pairs. *)
Fixpoint failedIdentifiers (pairs : list (string * string)) (answers : list (result float))
    : list string :=
  match pairs, answers with
  | (fromCurrency, toCurrency) :: pairs', Err _ :: answers' =>
      (fromCurrency ++ "-" ++ toCurrency) :: failedIdentifiers pairs' answers'
  | _ :: pairs', Ok _ :: answers' => failedIdentifiers pairs' answers'
  | _, _ => []
  end.

(** ** Package [internal/utils]: [Contains] *)

Module utils.

(** The loop [for i := 0; i <= len(str)-len(sub); i++] from index [i],
    with at most [iterations] rounds to go; [str[i:i+len(sub)]] is the
    slice compared. *)
Fixpoint containsLoop (iterations : nat) (i : Z) (str sub : string) : bool :=
  match iterations with
  | O => false
  | S iterations' =>
      if i <=? Z.of_nat (String.length str) - Z.of_nat (String.length sub) then
        if String.eqb (substring (Z.to_nat i) (String.length sub) str) sub then true
        else containsLoop iterations' (i + 1) str sub
      else false
  end.

(** The index runs from 0 to [len(str)] at most. *)
Definition Contains (str sub : string) : bool :=
  containsLoop (S (String.length str)) 0 str sub.

(** What a handler writes: the status code and the body.  The body is
    the value handed to the JSON encoder, or the text that [WriteJSON]
    falls back on when the encoder fails. *)
Inductive Payload : Type :=
  | ErrorData (error : string)                                   (* [sendErr]: "error" and "status": "error" *)
  | ConvertResponse (Amount : float)                             (* [models.ConvertResponse] *)
  | CurrencyRate (From To : string) (Rate : float) (Date : string).  (* [models.CurrencyRate] *)

Inductive Body : Type :=
  | JSON (payload : Payload)
  | PlainText (text : string).

Record Response := mkResponse {
  StatusCode : Z;
  ResponseBody : Body
}.

(** [json.Encoder.Encode] fails on a [float64] that is not finite, and on
    nothing else that these payloads hold. *)
Definition encodable (payload : Payload) : bool :=
  match payload with
  | ErrorData _ => true
  | ConvertResponse Amount => PrimFloat.is_finite Amount
  | CurrencyRate _ _ Rate _ => PrimFloat.is_finite Rate
  end.

(** [WriteJSON]: the status code is written before the payload is
    encoded, so a failure of the encoder changes the body only. *)
Definition WriteJSON (code : Z) (payload : Payload) : Response :=
  if encodable payload then mkResponse code (JSON payload)
  else mkResponse code (PlainText "Internal Server Error").

Definition sendErr (code : Z) (msg : string) : Response :=
  WriteJSON code (ErrorData msg).

Definition ErrorResp (code : Z) (msg : string) : Response := sendErr code msg.

End utils.

(** ** Error texts: [err.Error()] *)

(** The verb [%d] of [fmt]. *)
Definition formatInt (n : Z) : string := DecimalString.NilZero.string_of_int (Z.to_int n).

Section messages.
(** The verb [%f] of [fmt] on a [float64]. *)
Variable formatFloat : float -> string.

Fixpoint errorMessage (err : error) : string :=
  match err with
  | External msg => msg
  | UnsupportedSource code => "unsupported source currency: " ++ code
  | UnsupportedTarget code => "unsupported target currency: " ++ code
  | NegativeAmount amt => "amount cannot be negative: " ++ formatFloat amt
  | ExchangeRateFailed cause => "failed to get exchange rate: " ++ errorMessage cause
  | HistoricalFetchFailed cause => "failed to fetch historical rate: " ++ errorMessage cause
  | DateEmpty => "date cannot be empty"
  | BadDateFormat dateStr => "invalid date format, expected YYYY-MM-DD: " ++ dateStr
  | DateInFuture dateStr => "date cannot be in the future: " ++ dateStr
  | DateTooFarPast maxDays =>
      "date is too far in the past, maximum " ++ formatInt maxDays ++ " days allowed"
  | FailedAfterTries tries cause =>
      "failed after " ++ formatInt tries ++ " tries: " ++ errorMessage cause
  | HttpReqFailed cause => "http req failed: " ++ errorMessage cause
  | ApiHttpStatus code body => "api http " ++ formatInt code ++ ": " ++ body
  | ReadBodyFailed cause => "read body failed: " ++ errorMessage cause
  | JsonParseFailed cause => "json parse failed: " ++ errorMessage cause
  | ApiError res => "api error: " ++ res
  | InvalidRate rate => "invalid rate: " ++ formatFloat rate
  end.

End messages.

(** ** Package [internal/handlers]: the exchange handler *)

Module handlers.

Section handler.
Context {P : Type} {apiClient : api.ExchangeRateAPIClient P}.
(** [%f] of [fmt], and [strconv.ParseFloat(s, 64)] ([None]: an error). *)
Variable formatFloat : float -> string.
Variable ParseFloat : string -> option float.

Definition handleServiceError (err : error) : utils.Response :=
  let msg := errorMessage formatFloat err in
  if utils.Contains msg "unsupported" || utils.Contains msg "invalid"
  then utils.ErrorResp 400 msg
  else if utils.Contains msg "negative"
  then utils.ErrorResp 400 msg
  else if utils.Contains msg "future" || utils.Contains msg "too far"
  then utils.ErrorResp 400 msg
  else if utils.Contains msg "format"
  then utils.ErrorResp 400 msg
  else if utils.Contains msg "api request failed" || utils.Contains msg "failed to fetch"
  then utils.ErrorResp 503 "exchange rate service temporarily unavailable"
  else utils.ErrorResp 500 "internal server error".

(** [query] is [r.URL.Query().Get]: the first value of a parameter, or
    the empty string. *)
Definition Convert (query : string -> string) : M P utils.Response :=
  let fromCurrency := query "from" in
  let toCurrency := query "to" in
  let amountStr := query "amount" in
  if String.eqb fromCurrency "" then
    mret (utils.ErrorResp 400 "missing required parameter: from")
  else if String.eqb toCurrency "" then
    mret (utils.ErrorResp 400 "missing required parameter: to")
  else if String.eqb amountStr "" then
    mret (utils.ErrorResp 400 "missing required parameter: amount")
  else
    match ParseFloat amountStr with
    | None => mret (utils.ErrorResp 400 "invalid amount format")
    | Some amount =>
        let date := query "date" in
        r ← services.ConvertCurrencyAmount fromCurrency toCurrency amount date;
        match r with
        | Err err => mret (handleServiceError err)
        | Ok convertedAmount =>
            mret (utils.WriteJSON 200 (utils.ConvertResponse convertedAmount))
        end
    end.

Definition GetLatestRate (q : string -> string) : M P utils.Response :=
  let from := q "from" in
  let to := q "to" in
  if String.eqb from "" then
    mret (utils.ErrorResp 400 "missing required parameter: from")
  else if String.eqb to "" then
    mret (utils.ErrorResp 400 "missing required parameter: to")
  else
    r ← services.ConvertCurrencyAmount from to 1 "";
    match r with
    | Err err => mret (handleServiceError err)
    | Ok rate => mret (utils.WriteJSON 200 (utils.CurrencyRate from to rate "latest"))
    end.

Definition GetHistoricalRate (q : string -> string) : M P utils.Response :=
  let from := q "from" in
  let to := q "to" in
  let dt := q "date" in
  if String.eqb from "" then
    mret (utils.ErrorResp 400 "missing required parameter: from")
  else if String.eqb to "" then
    mret (utils.ErrorResp 400 "missing required parameter: to")
  else if String.eqb dt "" then
    mret (utils.ErrorResp 400 "missing required parameter: date")
  else
    r ← services.GetHistoricalExchangeRate from to dt;
    match r with
    | Err err => mret (handleServiceError err)
    | Ok rate => mret (utils.WriteJSON 200 (utils.CurrencyRate from to rate dt))
    end.

End handler.

End handlers.

(** The first of the parameters [required] that a query leaves empty. *)
Fixpoint firstMissing (required : list string) (query : string -> string) : option string :=
  match required with
  | [] => None
  | name :: rest =>
      if String.eqb (query name) "" then Some name else firstMissing rest query
  end.

(** The words that [handleServiceError] looks for, in the order of its
    cases: the first six answer 400, the last two 503. *)
Definition badRequestWords : list string :=
  ["unsupported"; "invalid"; "negative"; "future"; "too far"; "format"].

Definition unavailableWords : list string :=
  ["api request failed"; "failed to fetch"].

(** The message contains none of the words. *)
Definition freeOf (words : list string) (msg : string) : bool :=
  forallb (fun word => negb (utils.Contains msg word)) words.

(** The errors with which the service refuses a request: an unsupported
    code, a negative amount, a date that is malformed, in the future or
    too old (the last three also wrapped by a conversion). *)
Definition refusal (err : error) : bool :=
  match err with
  | UnsupportedSource _ | UnsupportedTarget _ | NegativeAmount _
  | BadDateFormat _ | DateInFuture _ | DateTooFarPast _ => true
  | ExchangeRateFailed (BadDateFormat _) | ExchangeRateFailed (DateInFuture _)
  | ExchangeRateFailed (DateTooFarPast _) => true
  | _ => false
  end.

(** Stand-ins for the two library functions, for the examples. *)
Definition toyFormatFloat (x : float) : string :=
  if PrimFloat.eqb x (-1) then "-1.000000" else "0.000000".

Definition toyParseFloat (s : string) : option float :=
  if String.eqb s "100" then Some 100%float
  else if String.eqb s "-1" then Some (-1)%float
  else if String.eqb s "NaN" then Some PrimFloat.nan
  else None.


(** [q] and [word] differ at a position that both have. *)
Fixpoint mismatch (q word : string) : bool :=
  match q, word with
  | String a q', String b word' => if Ascii.eqb a b then mismatch q' word' else true
  | _, _ => false
  end.

(** No occurrence of [word] can begin inside the text [p], whatever
    follows [p]. *)
Fixpoint clearOf (p word : string) : bool :=
  match p with
  | EmptyString => true
  | String _ p' => mismatch p word && clearOf p' word
  end.

(** * Properties *)

Ltac run :=
  unfold mbind, M_bind, mret, M_ret, Now, getGlobals, storeEntry, callGetRate; simpl.

Example parse_ok : gotime.Parse "2025-06-15" = Some (20254 * gotime.nanosPerDay).
Proof. vm_compute. reflexivity. Qed.
Example parse_bad1 : gotime.Parse "2025-13-40" = None. Proof. reflexivity. Qed.
Example parse_bad2 : gotime.Parse "2025-02-29" = None. Proof. reflexivity. Qed.
Example parse_ok2 : gotime.Parse "2024-02-29" = Some (19782 * gotime.nanosPerDay).
Proof. vm_compute. reflexivity. Qed.
Example parse_epoch : gotime.Parse "1970-01-01" = Some 0. Proof. reflexivity. Qed.
Example sup1 : config.IsSupportedCurrency "  usd " = true. Proof. reflexivity. Qed.

#[local] Set Warnings "-inexact-float".

Example convert_example :
  (services.ConvertCurrencyAmount "usd" " EUR " 100 "" (freshWorld [Ok 0.86%float] 0)).1
  = Ok 86%float.
Proof. vm_compute. reflexivity. Qed.

(** ** Normalisation of currency codes *)

Lemma upperByte_idem (c : ascii) :
  gostrings.upperByte (gostrings.upperByte c) = gostrings.upperByte c.
Proof. destruct c as [[] [] [] [] [] [] [] []]; reflexivity. Qed.

Lemma asciiSpace_upperByte (c : ascii) :
  gostrings.asciiSpace (gostrings.upperByte c) = gostrings.asciiSpace c.
Proof. destruct c as [[] [] [] [] [] [] [] []]; reflexivity. Qed.

Lemma ToUpper_idem (s : string) :
  gostrings.ToUpper (gostrings.ToUpper s) = gostrings.ToUpper s.
Proof.
  induction s as [|c s IH]; simpl; [reflexivity|].
  now rewrite upperByte_idem, IH.
Qed.

Lemma trimStart_ToUpper (s : string) :
  gostrings.trimStart (gostrings.ToUpper s) = gostrings.ToUpper (gostrings.trimStart s).
Proof.
  induction s as [|c s IH]; simpl; [reflexivity|].
  rewrite asciiSpace_upperByte. destruct (gostrings.asciiSpace c); [exact IH | reflexivity].
Qed.

Lemma trimStop_ToUpper (s : string) :
  gostrings.trimStop (gostrings.ToUpper s) = gostrings.ToUpper (gostrings.trimStop s).
Proof.
  induction s as [|c s IH]; simpl; [reflexivity|].
  rewrite IH, asciiSpace_upperByte.
  destruct (gostrings.trimStop s); simpl; [|reflexivity].
  destruct (gostrings.asciiSpace c); reflexivity.
Qed.

Lemma trimStart_startsClean (s : string) : startsClean (gostrings.trimStart s).
Proof.
  induction s as [|c s IH]; simpl; [exact I|].
  destruct (gostrings.asciiSpace c) eqn:E; [exact IH | exact E].
Qed.

Lemma trimStart_clean (s : string) : startsClean s -> gostrings.trimStart s = s.
Proof. destruct s as [|c s]; simpl; [reflexivity|]. now intros ->. Qed.

Lemma trimStop_startsClean (s : string) :
  startsClean s -> startsClean (gostrings.trimStop s).
Proof.
  destruct s as [|c s]; simpl; [trivial|]. intros E.
  destruct (gostrings.trimStop s); simpl; [rewrite E|]; exact E.
Qed.

Lemma trimStop_idem (s : string) :
  gostrings.trimStop (gostrings.trimStop s) = gostrings.trimStop s.
Proof.
  induction s as [|c s IH]; simpl; [reflexivity|].
  destruct (gostrings.trimStop s) as [|c' r] eqn:E.
  - destruct (gostrings.asciiSpace c) eqn:Ec; simpl; [reflexivity|]. now rewrite Ec.
  - simpl in *. now rewrite IH.
Qed.

Lemma TrimSpace_idem (s : string) :
  gostrings.TrimSpace (gostrings.TrimSpace s) = gostrings.TrimSpace s.
Proof.
  unfold gostrings.TrimSpace.
  rewrite (trimStart_clean (gostrings.trimStop _)).
  - apply trimStop_idem.
  - apply trimStop_startsClean, trimStart_startsClean.
Qed.

Lemma TrimSpace_ToUpper (s : string) :
  gostrings.TrimSpace (gostrings.ToUpper s) = gostrings.ToUpper (gostrings.TrimSpace s).
Proof.
  unfold gostrings.TrimSpace. now rewrite trimStart_ToUpper, trimStop_ToUpper.
Qed.

Lemma normalize_idem (code : string) : normalize (normalize code) = normalize code.
Proof.
  unfold normalize. now rewrite TrimSpace_ToUpper, TrimSpace_idem, ToUpper_idem.
Qed.

Lemma buildRateKey_normalize (from to : string) :
  cache.buildRateKey (normalize from) (normalize to) = cache.buildRateKey from to.
Proof.
  unfold cache.buildRateKey.
  fold (normalize (normalize from)) (normalize (normalize to)) (normalize from) (normalize to).
  now rewrite !normalize_idem.
Qed.

(** C10.  Cache keys do not depend on the spelling of the codes.  For
    codes of ASCII bytes, in every state: [GetRate] reads the entry under
    the key made of the two codes trimmed and in upper case, with a hyphen
    between them; [SetRate] writes the rate, with the reading of the
    clock, under that key and leaves every other key as it was; so both
    do on [(from, to)] exactly what they do on the trimmed upper-case
    codes, the result and the table written included. *)
Theorem C10_cache_keys_normalization_invariant
    {P : Type} (from to : string) (rate : float) (w : World P) :
  gostrings.isASCII from = true ->
  gostrings.isASCII to = true ->
  let key := normalize from ++ "-" ++ normalize to in
  cache.GetRate from to w
  = (match rateData w !! key with
     | Some entry => (exchangeRate entry, true)
     | None => (0%float, false)
     end, w)
  /\ cache.SetRate from to rate w
     = (tt, mkWorld (globals w)
              (<[key := mkRateEntry rate (clock w (reads w))]> (rateData w))
              (provider w) (apiLog w) (clock w) (S (reads w)))
  /\ cache.GetRate (normalize from) (normalize to) w = cache.GetRate from to w
  /\ cache.SetRate (normalize from) (normalize to) rate w = cache.SetRate from to rate w.
Proof.
  intros _ _ key. split; [|split].
  - unfold cache.GetRate. fold (normalize from) (normalize to).
    change (cache.buildRateKey from to) with key.
    destruct (rateData w !! key); reflexivity.
  - reflexivity.
  - unfold cache.GetRate, cache.SetRate.
    rewrite buildRateKey_normalize. split; reflexivity.
Qed.

Lemma C10_cache_keys_normalization_invariant_witness :
  let w := freshWorld [] noon_2025_06_15 in
  gostrings.isASCII " usd" = true
  /\ gostrings.isASCII "eur " = true
  /\ cache.SetRate " usd" "eur " 0.5 w
     = (tt, mkWorld (globals w)
              (<["USD-EUR" := mkRateEntry 0.5 noon_2025_06_15]> (rateData w))
              (provider w) (apiLog w) (clock w) 1%nat).
Proof.
  intros w. split; [reflexivity|]. split; [reflexivity|].
  exact (proj1 (proj2 (C10_cache_keys_normalization_invariant
                         " usd" "eur " 0.5 w eq_refl eq_refl))).
Defined.

(** ** The provider client *)

(** C9.  The request built by the client does not mention the date: two
    date strings give the same endpoint, and therefore the same answer and
    the same requests on the network, whatever the network replies. *)
Theorem C9_client_ignores_date
    (json_Unmarshal : string -> result client.apiResp)
    (g : config.Globals) (from to d1 d2 : string) :
  client.buildEndpoint g from to d1 = client.buildEndpoint g from to d2
  /\ (forall net : client.Net,
        client.doAPICall json_Unmarshal g from to d1 net
        = client.doAPICall json_Unmarshal g from to d2 net)
  /\ (forall net : client.Net,
        client.GetRate json_Unmarshal g from to d1 net
        = client.GetRate json_Unmarshal g from to d2 net).
Proof.
  split; [reflexivity|]. split; [reflexivity|].
  intros net. unfold client.GetRate.
  generalize (@None error). generalize net.
  induction (Z.to_nat client.maxRetries) as [|n IH]; intros net0 lastErr; simpl.
  - reflexivity.
  - change (client.doAPICall json_Unmarshal g from to d1 net0)
      with (client.doAPICall json_Unmarshal g from to d2 net0).
    destruct (client.doAPICall json_Unmarshal g from to d2 net0) as [[rate|err] net'].
    + reflexivity.
    + apply IH.
Qed.

(** ** The conversion service: validation and the identity case *)

Section service_facts.
Context {P : Type} {apiClient : api.ExchangeRateAPIClient P}.

Lemma validateCurrencyPair_supported (from to : string) :
  config.IsSupportedCurrency from = true ->
  config.IsSupportedCurrency to = true ->
  services.validateCurrencyPair from to = None.
Proof. unfold services.validateCurrencyPair. now intros -> ->. Qed.

(** The identity case as the code has it: the two strings are equal. *)
Lemma ConvertCurrencyAmount_same_string (code : string) (amt : float) (dt : string)
    (w : World P) :
  config.IsSupportedCurrency code = true ->
  PrimFloat.ltb amt 0 = false ->
  services.ConvertCurrencyAmount code code amt dt w = (Ok amt, w).
Proof.
  intros Hs Ha. unfold services.ConvertCurrencyAmount.
  rewrite (validateCurrencyPair_supported _ _ Hs Hs), Ha, String.eqb_refl.
  reflexivity.
Qed.

(** With two different strings the rate is resolved, whatever they
    normalise to. *)
Lemma ConvertCurrencyAmount_resolves (from to : string) (amt : float) (dt : string)
    (w : World P) :
  config.IsSupportedCurrency from = true ->
  config.IsSupportedCurrency to = true ->
  PrimFloat.ltb amt 0 = false ->
  from <> to ->
  services.ConvertCurrencyAmount from to amt dt w
  = let '(r, w') := services.getExchangeRateForPair from to dt w in
    (match r with
     | Err err => Err (ExchangeRateFailed err)
     | Ok rate => Ok (PrimFloat.mul amt rate)
     end, w').
Proof.
  intros Hf Ht Ha Hne. unfold services.ConvertCurrencyAmount.
  rewrite (validateCurrencyPair_supported _ _ Hf Ht), Ha.
  apply String.eqb_neq in Hne. rewrite Hne. run.
  destruct (services.getExchangeRateForPair from to dt w) as [[rate|err] w']; reflexivity.
Qed.

End service_facts.

(** C7.  A negative amount is refused before anything else happens: for
    supported codes and [amt < 0], the call fails with the negative-amount
    error (kind [InvalidAmount]) in every state, and the state, hence the
    cache table and the provider, is the one it started from. *)
Theorem C7_negative_amount_rejected
    {P : Type} {apiClient : api.ExchangeRateAPIClient P}
    (from to : string) (amt : float) (dt : string) (w : World P) :
  config.IsSupportedCurrency from = true ->
  config.IsSupportedCurrency to = true ->
  PrimFloat.ltb amt 0 = true ->
  services.ConvertCurrencyAmount from to amt dt w = (Err (NegativeAmount amt), w)
  /\ errorKind (NegativeAmount amt) = InvalidAmount.
Proof.
  intros Hf Ht Ha. split; [|reflexivity].
  unfold services.ConvertCurrencyAmount.
  now rewrite (validateCurrencyPair_supported _ _ Hf Ht), Ha.
Qed.

Lemma C7_negative_amount_rejected_witness :
  config.IsSupportedCurrency "USD" = true
  /\ config.IsSupportedCurrency "EUR" = true
  /\ PrimFloat.ltb (-1) 0 = true
  /\ services.ConvertCurrencyAmount "USD" "EUR" (-1)%float ""
       (freshWorld [Ok 0.86%float] noon_2025_06_15)
     = (Err (NegativeAmount (-1)%float), freshWorld [Ok 0.86%float] noon_2025_06_15)
  /\ errorKind (NegativeAmount (-1)%float) = InvalidAmount.
Proof.
  split; [reflexivity|]. split; [reflexivity|]. split; [reflexivity|].
  apply (C7_negative_amount_rejected "USD" "EUR" (-1)%float ""); reflexivity.
Defined.

(** C3.  The identity case compares the two strings as they were given.
    Two spellings of one supported currency, "usd" and "USD", are not
    taken for the same currency: the table is consulted under the key
    "USD-USD", the provider is called for the pair, a failure of the
    provider fails the conversion, and a success is stored under
    "USD-USD". *)
Theorem C3_same_currency_other_spelling :
  config.IsSupportedCurrency "usd" = true
  /\ normalize "usd" = normalize "USD"
  /\ PrimFloat.leb 0 5 = true
  /\ (let '(r, w') := services.ConvertCurrencyAmount "usd" "USD" 5 ""
                        (freshWorld [] noon_2025_06_15) in
      r = Err (ExchangeRateFailed (External "no answer"))
      /\ apiLog w' = [("usd", "USD", "", Err (External "no answer"))])
  /\ (let '(r, w') := services.ConvertCurrencyAmount "usd" "USD" 5 ""
                        (freshWorld [Ok 1%float] noon_2025_06_15) in
      r = Ok 5%float
      /\ apiLog w' = [("usd", "USD", "", Ok 1%float)]
      /\ rateData w' !! "USD-USD" = Some (mkRateEntry 1 noon_2025_06_15)).
Proof. vm_compute. repeat split; reflexivity. Qed.

(** ** The latest path: cache first, then the provider *)

Section latest_path.
Context {P : Type} {apiClient : api.ExchangeRateAPIClient P}.

Lemma latest_hit (from to : string) (w : World P) (entry : rateEntry) :
  rateData w !! cache.buildRateKey from to = Some entry ->
  services.getExchangeRateForPair from to "" w = (Ok (exchangeRate entry), w).
Proof.
  intros Hhit. unfold services.getExchangeRateForPair, cache.GetRate. run.
  now rewrite Hhit.
Qed.

Lemma latest_miss (from to : string) (w : World P) :
  rateData w !! cache.buildRateKey from to = None ->
  services.getExchangeRateForPair from to "" w
  = let '(r, p') := api.GetRate (globals w) from to "" (provider w) in
    let log := (apiLog w ++ [(from, to, "", r)])%list in
    match r with
    | Err err =>
        (Err err, mkWorld (globals w) (rateData w) p' log (clock w) (reads w))
    | Ok rate =>
        (Ok rate,
         mkWorld (globals w)
           (<[cache.buildRateKey from to := mkRateEntry rate (clock w (reads w))]>
              (rateData w))
           p' log (clock w) (S (reads w)))
    end.
Proof.
  intros Hmiss. unfold services.getExchangeRateForPair, cache.GetRate, cache.SetRate. run.
  rewrite Hmiss. simpl.
  destruct (api.GetRate (globals w) from to "" (provider w)) as [[rate|err] p']; reflexivity.
Qed.

End latest_path.

(** C1.  Rate resolution without a date.  On a hit the cached rate is the
    result and the state is untouched (no provider call).  On a miss the
    provider is called once, for the latest rate: if it answers with a
    rate, that rate is the result and a following [GetRate] on the pair
    finds it; if it fails, its error is the result and the table is the
    one before the call.  [ConvertCurrencyAmount] multiplies the amount by
    the rate, and hands the error on, wrapped. *)
Theorem C1_latest_path_write_through
    {P : Type} {apiClient : api.ExchangeRateAPIClient P}
    (from to : string) (amt : float) (w : World P) :
  config.IsSupportedCurrency from = true ->
  config.IsSupportedCurrency to = true ->
  (forall entry,
      rateData w !! cache.buildRateKey from to = Some entry ->
      services.getExchangeRateForPair from to "" w = (Ok (exchangeRate entry), w))
  /\ (rateData w !! cache.buildRateKey from to = None ->
      forall r p',
        api.GetRate (globals w) from to "" (provider w) = (r, p') ->
        let '(res, w') := services.getExchangeRateForPair from to "" w in
        apiLog w' = (apiLog w ++ [(from, to, "", r)])%list
        /\ provider w' = p'
        /\ match r with
           | Ok rate =>
               res = Ok rate /\ (cache.GetRate from to w').1 = (rate, true)
           | Err err =>
               res = Err err /\ rateData w' = rateData w
           end)
  /\ (PrimFloat.ltb amt 0 = false -> from <> to ->
      services.ConvertCurrencyAmount from to amt "" w
      = let '(res, w') := services.getExchangeRateForPair from to "" w in
        (match res with
         | Err err => Err (ExchangeRateFailed err)
         | Ok rate => Ok (PrimFloat.mul amt rate)
         end, w')).
Proof.
  intros Hf Ht. split; [|split].
  - intros entry. apply latest_hit.
  - intros Hmiss r p' Hcall. rewrite (latest_miss _ _ _ Hmiss), Hcall.
    destruct r as [rate|err]; simpl.
    + repeat split; try reflexivity.
      unfold cache.GetRate; simpl. now rewrite lookup_insert_eq.
    + repeat split; reflexivity.
  - intros Ha Hne. now apply ConvertCurrencyAmount_resolves.
Qed.

Lemma C1_latest_path_write_through_witness :
  config.IsSupportedCurrency "USD" = true
  /\ config.IsSupportedCurrency "EUR" = true
  /\ (let '(res, w') := services.getExchangeRateForPair "USD" "EUR" ""
                          (freshWorld [Ok 0.86%float] noon_2025_06_15) in
      apiLog w' = [("USD", "EUR", "", Ok 0.86%float)]
      /\ provider w' = []
      /\ res = Ok 0.86%float
      /\ (cache.GetRate "USD" "EUR" w').1 = (0.86%float, true)).
Proof.
  split; [reflexivity|]. split; [reflexivity|].
  destruct (C1_latest_path_write_through "USD" "EUR" 1%float
              (freshWorld [Ok 0.86%float] noon_2025_06_15) eq_refl eq_refl)
    as (_ & Hmiss & _).
  exact (Hmiss eq_refl (Ok 0.86%float) [] eq_refl).
Defined.

(** ** The historical path *)

Section historical_path.
Context {P : Type} {apiClient : api.ExchangeRateAPIClient P}.


Lemma historical_table_kept (from to dateStr : string) (w : World P) :
  rateData (services.GetHistoricalExchangeRate from to dateStr w).2 = rateData w.
Proof.
  unfold services.GetHistoricalExchangeRate, services.validateAndParseDate,
    services.validateHistoricalRange.
  destruct (services.validateCurrencyPair from to); [reflexivity|].
  destruct (String.eqb from to); [reflexivity|].
  destruct (String.eqb dateStr ""); [reflexivity|].
  destruct (gotime.Parse dateStr) as [parsedDate|]; [|reflexivity].
  run.
  destruct (gotime.After parsedDate (clock w (reads w))); [reflexivity|]. simpl.
  destruct (gotime.Before parsedDate _); [reflexivity|]. simpl.
  destruct (api.GetRate (globals w) from to dateStr (provider w)) as [[rate|err] p'];
    reflexivity.
Qed.

Lemma Parse_nonempty (dateStr : string) (t : gotime.Time) :
  gotime.Parse dateStr = Some t -> String.eqb dateStr "" = false.
Proof. destruct dateStr; [discriminate | reflexivity]. Qed.

Lemma historical_valid_call (from to dateStr : string) (w : World P) :
  historicalValid from to dateStr w ->
  services.GetHistoricalExchangeRate from to dateStr w
  = let '(a, p') := api.GetRate (globals w) from to dateStr (provider w) in
    (match a with
     | Ok historicalRate => Ok historicalRate
     | Err err => Err (HistoricalFetchFailed err)
     end,
     mkWorld (globals w) (rateData w) p' (apiLog w ++ [(from, to, dateStr, a)])
       (clock w) (S (S (reads w)))).
Proof.
  intros (Hf & Ht & Hne & parsedDate & Hparse & Hnow & Hold).
  unfold services.GetHistoricalExchangeRate, services.validateAndParseDate,
    services.validateHistoricalRange.
  rewrite (validateCurrencyPair_supported _ _ Hf Ht).
  apply String.eqb_neq in Hne. rewrite Hne, (Parse_nonempty _ _ Hparse), Hparse.
  run.
  replace (gotime.After parsedDate (clock w (reads w))) with false
    by (symmetry; apply Z.ltb_ge; exact Hnow).
  simpl.
  replace (gotime.Before parsedDate _) with false
    by (symmetry; apply Z.ltb_ge; unfold gotime.AddDays; lia).
  simpl.
  destruct (api.GetRate (globals w) from to dateStr (provider w)) as [[rate|err] p'];
    reflexivity.
Qed.

End historical_path.




Example historical_twice :
  let w := freshWorld [Ok 0.5%float; Ok 0.25%float] noon_2025_06_15 in
  let '(r1, w1) := services.GetHistoricalExchangeRate "USD" "EUR" "2025-06-01" w in
  let '(r2, w2) := services.GetHistoricalExchangeRate "USD" "EUR" "2025-06-01" w1 in
  r1 = Ok 0.5%float /\ r2 = Ok 0.25%float /\ length (apiLog w2) = 2%nat
  /\ rateData w2 = ∅.
Proof. vm_compute. repeat split; reflexivity. Qed.

(** ** Date strings *)

Lemma digit_spec (c : ascii) :
  gotime.digit c = if isDigitChar c then Some (digitValue c) else None.
Proof. reflexivity. Qed.

Lemma daysIn_spec (year month : Z) :
  1 <= month <= 12 -> gotime.daysIn month year = daysInMonth year month.
Proof.
  intros H.
  assert (month = 1 \/ month = 2 \/ month = 3 \/ month = 4 \/ month = 5 \/ month = 6
          \/ month = 7 \/ month = 8 \/ month = 9 \/ month = 10 \/ month = 11
          \/ month = 12) as Hm by lia.
  unfold gotime.daysIn, daysInMonth.
  repeat (destruct Hm as [-> | Hm]); try subst month; simpl;
    try reflexivity; destruct (gotime.isLeap year); reflexivity.
Qed.

Lemma range_checks (year month day : Z) (t : gotime.Time) :
  match (if (month <=? 0) || (12 <? month) then None
         else if (day <? 1) || (gotime.daysIn month year <? day) then None
              else Some t)
  with Some _ => true | None => false end
  = (1 <=? month) && (month <=? 12) && (1 <=? day) && (day <=? daysInMonth year month).
Proof.
  destruct (Z.leb_spec month 0), (Z.ltb_spec 12 month); simpl;
    try (destruct (Z.leb_spec 1 month), (Z.leb_spec month 12); simpl; (reflexivity || lia)).
  rewrite daysIn_spec by lia.
  destruct (Z.leb_spec 1 month), (Z.leb_spec month 12); try lia. simpl.
  destruct (Z.ltb_spec day 1), (Z.leb_spec 1 day); try lia; simpl; try reflexivity.
  destruct (Z.ltb_spec (daysInMonth year month) day),
    (Z.leb_spec day (daysInMonth year month)); try lia; reflexivity.
Qed.



Ltac recall_tests :=
  repeat match goal with
         | H : isDigitChar ?c = _ |- context [isDigitChar ?c] => rewrite H
         | H : Ascii.eqb ?c ?d = _ |- context [Ascii.eqb ?c ?d] => rewrite H
         end.

Lemma Parse_calendar (s : string) :
  match gotime.Parse s with Some _ => true | None => false end = isCalendarDate s.
Proof.
  destruct s as [|y3 [|y2 [|y1 [|y0 [|h1 [|m1 [|m0 [|h2 [|d1 [|d0 [|x r]]]]]]]]]]];
  cbv beta iota delta [gotime.Parse gotime.getYear gotime.getnum gotime.skipDash
                       isCalendarDate forallb].
  all: repeat (cbv beta iota; rewrite ?digit_spec; recall_tests; cbn [andb];
               try reflexivity;
               match goal with
               | |- context [isDigitChar ?c] => destruct (isDigitChar c) eqn:?
               | |- context [Ascii.eqb ?c ?d] => destruct (Ascii.eqb c d) eqn:?
               end).
  all: cbv beta iota zeta; rewrite ?digit_spec; recall_tests; cbn [andb];
       try reflexivity.
  all: rewrite ?(Z.mul_comm 10 (digitValue _)).
  all: try apply range_checks.
  all: try (destruct ((_ <=? 0) || _); reflexivity).
Qed.

Lemma Parse_not_calendar (dateStr : string) :
  isCalendarDate dateStr = false -> gotime.Parse dateStr = None.
Proof.
  intros H. pose proof (Parse_calendar dateStr) as E. rewrite H in E.
  destruct (gotime.Parse dateStr); [discriminate | reflexivity].
Qed.

Lemma Parse_is_calendar (dateStr : string) :
  isCalendarDate dateStr = true -> exists t, gotime.Parse dateStr = Some t.
Proof.
  intros H. pose proof (Parse_calendar dateStr) as E. rewrite H in E.
  destruct (gotime.Parse dateStr) as [t|]; [now exists t | discriminate].
Qed.

Example not_calendar_1 : isCalendarDate "2025-13-40" = false.
Proof. reflexivity. Qed.
Example not_calendar_2 : isCalendarDate "not-a-date" = false.
Proof. reflexivity. Qed.
Example not_calendar_3 : isCalendarDate "" = false.
Proof. reflexivity. Qed.
Example not_calendar_4 : isCalendarDate "2025-6-15" = false.
Proof. reflexivity. Qed.
Example calendar_1 : isCalendarDate "2024-02-29" = true.
Proof. reflexivity. Qed.

(** C6.  A date string that is not a calendar date in the strict form is
    refused by [GetHistoricalExchangeRate] for supported codes given as
    two different strings: the empty string with the error "date cannot be
    empty", any other with "invalid date format", both of the kind
    [InvalidDateFormat]; the state is the one before the call, so the
    provider was not called. *)
Theorem C6_malformed_date_rejected
    {P : Type} {apiClient : api.ExchangeRateAPIClient P}
    (from to dateStr : string) (w : World P) :
  config.IsSupportedCurrency from = true ->
  config.IsSupportedCurrency to = true ->
  from <> to ->
  isCalendarDate dateStr = false ->
  exists err,
    services.GetHistoricalExchangeRate from to dateStr w = (Err err, w)
    /\ err = (if String.eqb dateStr "" then DateEmpty else BadDateFormat dateStr)
    /\ errorKind err = InvalidDateFormat.
Proof.
  intros Hf Ht Hne Hbad.
  exists (if String.eqb dateStr "" then DateEmpty else BadDateFormat dateStr).
  split; [|split; [reflexivity | destruct (String.eqb dateStr ""); reflexivity]].
  unfold services.GetHistoricalExchangeRate, services.validateAndParseDate.
  rewrite (validateCurrencyPair_supported _ _ Hf Ht).
  apply String.eqb_neq in Hne. rewrite Hne. run.
  destruct (String.eqb dateStr ""); [reflexivity|].
  now rewrite (Parse_not_calendar _ Hbad).
Qed.

Lemma C6_malformed_date_rejected_witness :
  config.IsSupportedCurrency "USD" = true
  /\ config.IsSupportedCurrency "EUR" = true
  /\ "USD" <> "EUR"
  /\ isCalendarDate "2025-13-40" = false
  /\ exists err,
       services.GetHistoricalExchangeRate "USD" "EUR" "2025-13-40"
         (freshWorld [Ok 0.5%float] noon_2025_06_15)
       = (Err err, freshWorld [Ok 0.5%float] noon_2025_06_15)
       /\ err = (if String.eqb "2025-13-40" "" then DateEmpty
                 else BadDateFormat "2025-13-40")
       /\ errorKind err = InvalidDateFormat.
Proof.
  split; [reflexivity|]. split; [reflexivity|]. split; [discriminate|].
  split; [reflexivity|].
  apply (C6_malformed_date_rejected "USD" "EUR" "2025-13-40");
    [reflexivity | reflexivity | discriminate | reflexivity].
Defined.

(** ** The bounds of the historical range *)

Section range_bounds.
Context {P : Type} {apiClient : api.ExchangeRateAPIClient P}.

(** A parsed date is refused as too old when it lies before the second
    reading of the clock minus the lookback. *)
Lemma historical_out_of_range (from to dateStr : string) (t : gotime.Time) (w : World P) :
  config.IsSupportedCurrency from = true ->
  config.IsSupportedCurrency to = true ->
  from <> to ->
  gotime.Parse dateStr = Some t ->
  t <= clock w (reads w) ->
  t + config.MaxHistoricalDays (globals w) * gotime.nanosPerDay < clock w (S (reads w)) ->
  services.GetHistoricalExchangeRate from to dateStr w
  = (Err (DateTooFarPast (config.MaxHistoricalDays (globals w))),
     mkWorld (globals w) (rateData w) (provider w) (apiLog w) (clock w) (S (S (reads w)))).
Proof.
  intros Hf Ht Hne Hparse Hnow Hold.
  unfold services.GetHistoricalExchangeRate, services.validateAndParseDate,
    services.validateHistoricalRange.
  rewrite (validateCurrencyPair_supported _ _ Hf Ht).
  apply String.eqb_neq in Hne. rewrite Hne, (Parse_nonempty _ _ Hparse), Hparse.
  run.
  replace (gotime.After t (clock w (reads w))) with false
    by (symmetry; apply Z.ltb_ge; exact Hnow).
  simpl.
  replace (gotime.Before t _) with true
    by (symmetry; apply Z.ltb_lt; unfold gotime.AddDays; lia).
  reflexivity.
Qed.

(** A parsed date after the first reading of the clock is refused as a
    future date. *)
Lemma historical_future (from to dateStr : string) (t : gotime.Time) (w : World P) :
  config.IsSupportedCurrency from = true ->
  config.IsSupportedCurrency to = true ->
  from <> to ->
  gotime.Parse dateStr = Some t ->
  clock w (reads w) < t ->
  services.GetHistoricalExchangeRate from to dateStr w
  = (Err (DateInFuture dateStr),
     mkWorld (globals w) (rateData w) (provider w) (apiLog w) (clock w) (S (reads w))).
Proof.
  intros Hf Ht Hne Hparse Hnow.
  unfold services.GetHistoricalExchangeRate, services.validateAndParseDate.
  rewrite (validateCurrencyPair_supported _ _ Hf Ht).
  apply String.eqb_neq in Hne. rewrite Hne, (Parse_nonempty _ _ Hparse), Hparse.
  run.
  replace (gotime.After t (clock w (reads w))) with true
    by (symmetry; apply Z.ltb_lt; exact Hnow).
  reflexivity.
Qed.

End range_bounds.

(** The start of the day that lies [days] days before the day of [now] is
    more than [days] days before [now], unless [now] is a midnight. *)
Lemma start_of_day_before (now days : Z) :
  0 < now mod gotime.nanosPerDay ->
  (now / gotime.nanosPerDay - days) * gotime.nanosPerDay + days * gotime.nanosPerDay < now.
Proof.
  intros H. pose proof (Z.div_mod now gotime.nanosPerDay) as E.
  assert (gotime.nanosPerDay <> 0) as Hn by (vm_compute; discriminate).
  specialize (E Hn). lia.
Qed.

Section lookback_bounds.
Context {P : Type} {apiClient : api.ExchangeRateAPIClient P}.


End lookback_bounds.


(** When the clock is not at a midnight no date string denotes the
    instant "now minus the lookback": a date string denotes a midnight.
    On 2025-06-15 at noon UTC, with the default lookback of 90 days, the
    calendar date 90 days back, 2025-03-17, lies twelve hours before that
    instant and is refused as out of range; the oldest date accepted is
    2025-03-18. *)
Example lookback_at_noon :
  let w := freshWorld [Ok 0.5%float] noon_2025_06_15 in
  config.MaxHistoricalDays (globals w) = 90
  /\ clock w 0%nat = 20254 * gotime.nanosPerDay + 12 * 3600 * 1000000000
  /\ gotime.Parse "2025-06-15" = Some (20254 * gotime.nanosPerDay)
  /\ gotime.Parse "2025-03-17" = Some ((20254 - 90) * gotime.nanosPerDay)
  /\ (let '(r, w') := services.GetHistoricalExchangeRate "USD" "EUR" "2025-03-17" w in
      r = Err (DateTooFarPast 90) /\ apiLog w' = [])
  /\ (services.GetHistoricalExchangeRate "USD" "EUR" "2025-03-18" w).1 = Ok 0.5%float
  /\ (services.GetHistoricalExchangeRate "USD" "EUR" "2025-06-15" w).1 = Ok 0.5%float
  /\ (services.GetHistoricalExchangeRate "USD" "EUR" "2025-06-16" w).1
     = Err (DateInFuture "2025-06-16")
  /\ (services.GetHistoricalExchangeRate "USD" "EUR" "2025-03-16" w).1
     = Err (DateTooFarPast 90).
Proof. vm_compute. repeat split; reflexivity. Qed.

(** ** The background refresh *)

Example sweepPairs_supported :
  sweepPairs config.GetSupportedCurrencies
  = [("USD", "INR"); ("USD", "EUR"); ("USD", "JPY"); ("USD", "GBP");
     ("INR", "USD"); ("INR", "EUR"); ("INR", "JPY"); ("INR", "GBP");
     ("EUR", "USD"); ("EUR", "INR"); ("EUR", "JPY"); ("EUR", "GBP");
     ("JPY", "USD"); ("JPY", "INR"); ("JPY", "EUR"); ("JPY", "GBP");
     ("GBP", "USD"); ("GBP", "INR"); ("GBP", "EUR"); ("GBP", "JPY")].
Proof. reflexivity. Qed.

Section refresh_sweep.
Context {P : Type} {exchangeAPIClient : api.ExchangeRateAPIClient P}.

Lemma refreshPair_run (fromCurrency toCurrency : string) (st : cache.refreshStats)
    (w : World P) :
  cache.refreshPair fromCurrency toCurrency st w
  = let '(r, p') := api.GetRate (globals w) fromCurrency toCurrency "" (provider w) in
    let log := (apiLog w ++ [(fromCurrency, toCurrency, "", r)])%list in
    match r with
    | Err _ =>
        (cache.mkStats (cache.successfulUpdates st) (cache.totalPairs st + 1)
           (cache.failedPairs st ++ [fromCurrency ++ "-" ++ toCurrency]),
         mkWorld (globals w) (rateData w) p' log (clock w) (reads w))
    | Ok rate =>
        (cache.mkStats (cache.successfulUpdates st + 1) (cache.totalPairs st + 1)
           (cache.failedPairs st),
         mkWorld (globals w)
           (<[cache.buildRateKey fromCurrency toCurrency
              := mkRateEntry rate (clock w (reads w))]> (rateData w))
           p' log (clock w) (S (reads w)))
    end.
Proof.
  unfold cache.refreshPair, cache.SetRate. run.
  destruct (api.GetRate (globals w) fromCurrency toCurrency "" (provider w))
    as [[rate|err] p']; reflexivity.
Qed.

Lemma sweep_app (l1 l2 : list (string * string)) (st : cache.refreshStats) (w : World P) :
  sweep (l1 ++ l2) st w = let '(st', w') := sweep l1 st w in sweep l2 st' w'.
Proof.
  revert st w. induction l1 as [|[a b] l1 IH]; intros st w; simpl; [reflexivity|].
  run. destruct (cache.refreshPair a b st w) as [st1 w1]. apply IH.
Qed.

Lemma innerLoop_sweep (i : nat) (fromCurrency : string) (j : nat) (rest : list string)
    (st : cache.refreshStats) (w : World P) :
  cache.innerLoop i fromCurrency j rest st w
  = sweep (innerPairs i fromCurrency j rest) st w.
Proof.
  revert j st w. induction rest as [|toCurrency rest IH]; intros j st w; simpl;
    [reflexivity|].
  destruct (Nat.eqb i j); [apply IH|].
  simpl. run. destruct (cache.refreshPair fromCurrency toCurrency st w) as [st1 w1].
  apply IH.
Qed.

Lemma outerLoop_sweep (supportedCurrencies : list string) (i : nat) (rest : list string)
    (st : cache.refreshStats) (w : World P) :
  cache.outerLoop supportedCurrencies i rest st w
  = sweep (outerPairs supportedCurrencies i rest) st w.
Proof.
  revert i st w. induction rest as [|fromCurrency rest IH]; intros i st w; simpl;
    [reflexivity|].
  rewrite sweep_app. run. rewrite innerLoop_sweep.
  destruct (sweep (innerPairs i fromCurrency 0 supportedCurrencies) st w) as [st1 w1].
  apply IH.
Qed.

Lemma refreshAllRates_sweep (w : World P) :
  cache.refreshAllRates w
  = sweep (sweepPairs config.GetSupportedCurrencies) (cache.mkStats 0 0 []) w.
Proof. apply outerLoop_sweep. Qed.

End refresh_sweep.

Section sweep_facts.
Context {P : Type} {exchangeAPIClient : api.ExchangeRateAPIClient P}.

Lemma successKeys_subset (pairs : list (string * string)) (answers : list (result float))
    (key : string) :
  key ∈ successKeys pairs answers -> key ∈ pairKey <$> pairs.
Proof.
  revert answers. induction pairs as [|[a b] pairs IH]; intros [|[rate|err] answers];
    simpl; try (intros H; now apply not_elem_of_nil in H).
  - intros H. apply elem_of_cons in H as [->|H].
    + apply list_elem_of_here.
    + apply list_elem_of_further, (IH _ H).
  - intros H. apply list_elem_of_further, (IH _ H).
Qed.

Lemma sweep_spec (pairs : list (string * string)) (st : cache.refreshStats) (w : World P) :
  let '(answers, pEnd) := providerRun (globals w) pairs (provider w) in
  let '(st', w') := sweep pairs st w in
  globals w' = globals w /\ provider w' = pEnd /\ clock w' = clock w
  /\ apiLog w' = (apiLog w ++ callsOf pairs answers)%list
  /\ length answers = length pairs
  /\ cache.totalPairs st' = cache.totalPairs st + Z.of_nat (length pairs)
  /\ cache.successfulUpdates st' = cache.successfulUpdates st + countOk answers
  /\ (forall key, key ∉ successKeys pairs answers ->
        rateData w' !! key = rateData w !! key)
  /\ (NoDup (pairKey <$> pairs) ->
      forall i pair rate,
        pairs !! i = Some pair -> answers !! i = Some (Ok rate) ->
        exists t, rateData w' !! pairKey pair = Some (mkRateEntry rate t)).
Proof.
  revert st w. induction pairs as [|[a b] pairs IH]; intros st w; simpl.
  - rewrite app_nil_r. repeat split; try lia. intros _ i pair rate Hi. discriminate.
  - run. rewrite refreshPair_run.
    destruct (api.GetRate (globals w) a b "" (provider w)) as [[rate0|err] p1];
      cbv beta iota zeta;
      match goal with
      | |- context [sweep pairs ?s ?w1] => specialize (IH s w1)
      end;
      simpl in IH;
      destruct (providerRun (globals w) pairs p1) as [answers pEnd];
      destruct (sweep pairs _ _) as [st' w'];
      destruct IH as (Hg' & Hp' & Hc' & Hl' & Hlen & Htot & Hsucc & Hkeep & Hset);
      (split; [exact Hg'|]); (split; [exact Hp'|]); (split; [exact Hc'|]);
      (split; [rewrite Hl', <- app_assoc; reflexivity|]);
      (split; [simpl; lia|]);
      (split; [rewrite Htot; lia|]);
      (split; [rewrite Hsucc; simpl; lia|]);
      split.
    + intros key Hkey. rewrite Hkeep.
      * apply lookup_insert_ne. intros <-. apply Hkey. apply list_elem_of_here.
      * intros Hin. apply Hkey. apply list_elem_of_further. exact Hin.
    + intros Hnd i pair rate Hi Ha. apply NoDup_cons in Hnd as [Hfresh Hnd].
      destruct i as [|i]; simpl in Hi, Ha.
      * injection Hi as <-. injection Ha as ->. exists (clock w (reads w)).
        rewrite Hkeep.
        -- apply lookup_insert_eq.
        -- intros Hin. apply Hfresh. apply (successKeys_subset _ _ _ Hin).
      * apply (Hset Hnd i pair rate Hi Ha).
    + intros key Hkey. rewrite Hkeep; [reflexivity | exact Hkey].
    + intros Hnd i pair rate Hi Ha. apply NoDup_cons in Hnd as [Hfresh Hnd].
      destruct i as [|i]; simpl in Hi, Ha; [discriminate|].
      apply (Hset Hnd i pair rate Hi Ha).
Qed.

Lemma failed_not_among_successes (pairs : list (string * string))
    (answers : list (result float)) (i : nat) (pair : string * string) (err : error) :
  NoDup (pairKey <$> pairs) ->
  pairs !! i = Some pair -> answers !! i = Some (Err err) ->
  pairKey pair ∉ successKeys pairs answers.
Proof.
  revert answers i. induction pairs as [|[a b] pairs IH]; intros answers i Hnd Hi Ha;
    [discriminate|].
  apply NoDup_cons in Hnd as [Hfresh Hnd].
  destruct answers as [|r answers]; [discriminate|].
  destruct i as [|i]; simpl in Hi, Ha.
  - injection Hi as <-. injection Ha as ->. simpl.
    intros Hin. apply Hfresh, (successKeys_subset _ _ _ Hin).
  - assert (pairKey pair ∈ pairKey <$> pairs) as Hin'.
    { apply list_elem_of_fmap. exists pair. split; [reflexivity|].
      apply list_elem_of_lookup. now exists i. }
    destruct r as [rate|err']; simpl.
    + intros Hin. apply elem_of_cons in Hin as [Heq|Hin].
      * apply Hfresh. change (pairKey (a, b)) with (cache.buildRateKey a b).
        rewrite <- Heq. exact Hin'.
      * exact (IH answers i Hnd Hi Ha Hin).
    + exact (IH answers i Hnd Hi Ha).
Qed.

End sweep_facts.

Lemma supported_keys_distinct :
  NoDup (pairKey <$> sweepPairs config.GetSupportedCurrencies).
Proof. apply (bool_decide_unpack _). vm_compute. exact I. Qed.

Lemma sweepPairs_all_ordered_pairs (fromCurrency toCurrency : string) :
  (fromCurrency, toCurrency) ∈ sweepPairs config.GetSupportedCurrencies
  <-> fromCurrency ∈ config.SupportedCurrencyList
      /\ toCurrency ∈ config.SupportedCurrencyList
      /\ fromCurrency <> toCurrency.
Proof.
  rewrite sweepPairs_supported. unfold config.SupportedCurrencyList.
  rewrite !list_elem_of_In. simpl. split.
  - intros H.
    repeat (destruct H as [[= <- <-]|H];
            [split; [auto 10|split; [auto 10|discriminate]]|]).
    destruct H.
  - intros (Hf & Ht & Hne).
    repeat (destruct Hf as [<-|Hf]); try destruct Hf;
      repeat (destruct Ht as [<-|Ht]); try destruct Ht;
      try (now destruct Hne); auto 25.
Qed.

(** C2.  One refresh sweep.  The provider is asked for the latest rate of
    each of the 20 ordered pairs of different supported currencies, in
    order, whatever the earlier answers were.  After the sweep a pair that
    was answered with a rate holds that rate, and for a pair whose fetch
    failed the table holds what it held before: the former entry, or
    none. *)
Theorem C2_refresh_sweep_resilient
    {P : Type} {exchangeAPIClient : api.ExchangeRateAPIClient P} (w : World P) :
  let pairs := sweepPairs config.GetSupportedCurrencies in
  let answers := (providerRun (globals w) pairs (provider w)).1 in
  let '(st, w') := cache.refreshAllRates w in
  (forall fromCurrency toCurrency,
      (fromCurrency, toCurrency) ∈ pairs
      <-> fromCurrency ∈ config.SupportedCurrencyList
          /\ toCurrency ∈ config.SupportedCurrencyList
          /\ fromCurrency <> toCurrency)
  /\ length pairs = 20%nat
  /\ length answers = 20%nat
  /\ apiLog w' = (apiLog w ++ callsOf pairs answers)%list
  /\ cache.totalPairs st = 20
  /\ cache.successfulUpdates st = countOk answers
  /\ (forall i pair,
        pairs !! i = Some pair ->
        match answers !! i with
        | Some (Ok rate) =>
            exists t, rateData w' !! pairKey pair = Some (mkRateEntry rate t)
        | Some (Err _) =>
            rateData w' !! pairKey pair = rateData w !! pairKey pair
        | None => False
        end).
Proof.
  intros pairs answers. subst answers.
  rewrite refreshAllRates_sweep. fold pairs.
  pose proof (sweep_spec pairs (cache.mkStats 0 0 []) w) as H.
  destruct (providerRun (globals w) pairs (provider w)) as [answers pEnd].
  destruct (sweep pairs (cache.mkStats 0 0 []) w) as [st w'].
  destruct H as (_ & _ & _ & Hlog & Hlen & Htot & Hsucc & Hkeep & Hset).
  simpl in Htot, Hsucc.
  split; [exact sweepPairs_all_ordered_pairs|].
  split; [reflexivity|]. split; [exact Hlen|]. split; [exact Hlog|].
  split; [exact Htot|]. split; [exact Hsucc|].
  intros i pair Hi. simpl.
  destruct (answers !! i) as [[rate|err]|] eqn:Ha.
  - exact (Hset supported_keys_distinct i pair rate Hi Ha).
  - apply Hkeep. exact (failed_not_among_successes _ _ _ _ _ supported_keys_distinct Hi Ha).
  - apply lookup_ge_None in Ha. apply lookup_lt_Some in Hi. lia.
Qed.

(** Two sweeps over the scripted provider: the first answers every pair
    with 0.5, the second answers 0.25 except for the fourth pair,
    USD to GBP, which fails and keeps the rate of the first sweep. *)
Example two_sweeps_one_failure :
  let script := (replicate 20 (Ok 0.5%float) ++ replicate 3 (Ok 0.25%float)
                 ++ [Err (External "timeout")] ++ replicate 16 (Ok 0.25%float))%list in
  let '(st1, w1) := cache.refreshAllRates (freshWorld script noon_2025_06_15) in
  let '(st2, w2) := cache.refreshAllRates w1 in
  cache.successfulUpdates st1 = 20 /\ cache.successfulUpdates st2 = 19
  /\ cache.totalPairs st2 = 20 /\ cache.failedPairs st2 = ["USD-GBP"]
  /\ exchangeRate <$> rateData w2 !! "USD-GBP" = Some 0.5%float
  /\ exchangeRate <$> rateData w2 !! "USD-JPY" = Some 0.25%float
  /\ exchangeRate <$> rateData w2 !! "INR-USD" = Some 0.25%float
  /\ size (rateData w2) = 20%nat
  /\ length (apiLog w2) = 40%nat.
Proof. vm_compute. repeat split; reflexivity. Qed.

(** ** The table holds rates fetched with success *)

Lemma float_positive (x : float) :
  PrimFloat.leb x 0 = false -> PrimFloat.is_nan x = false -> PrimFloat.ltb 0 x = true.
Proof.
  intros Hle Hnan. rewrite FloatAxioms.ltb_spec. rewrite FloatAxioms.leb_spec in Hle.
  unfold PrimFloat.is_nan in Hnan. rewrite FloatAxioms.eqb_spec in Hnan.
  change (Prim2SF 0%float) with (S754_zero false) in *.
  destruct (Prim2SF x) as [[]|[]| |[] m e]; try reflexivity; try discriminate.
Qed.

Section client_facts.
Variable json_Unmarshal : string -> result client.apiResp.
Hypothesis decoder_ok : decodesNumbers json_Unmarshal.

(** [doAPICall] answers with a rate only on a reply with status 200
    whose body decodes to a response marked "success" with a rate that is
    not [<= 0]. *)
Lemma doAPICall_answer (g : config.Globals) (from to dt : string) (net net' : client.Net)
    (rate : float) :
  client.doAPICall json_Unmarshal g from to dt net = (Ok rate, net') ->
  exists body response,
    client.respond net (length (client.requests net))
      (config.ExternalAPIBaseURL g ++ client.buildEndpoint g from to dt)
    = client.Response 200 body None
    /\ json_Unmarshal body = Ok response
    /\ client.Result response = "success"
    /\ client.ConversionRate response = rate
    /\ PrimFloat.leb rate 0 = false.
Proof.
  unfold client.doAPICall, client.Get.
  destruct (client.respond net _ _) as [cause|StatusCode body readErr]; [discriminate|].
  destruct (StatusCode =? 200) eqn:Hs; [|discriminate]. simpl.
  destruct readErr; [discriminate|].
  destruct (json_Unmarshal body) as [response|err] eqn:Hdec; [|discriminate].
  destruct (String.eqb (client.Result response) "success") eqn:Hr; [|discriminate]. simpl.
  destruct (PrimFloat.leb (client.ConversionRate response) 0) eqn:Hle; [discriminate|].
  intros [= <- _]. apply Z.eqb_eq in Hs as ->. apply String.eqb_eq in Hr.
  now exists body, response.
Qed.

Lemma doAPICall_positive (g : config.Globals) (from to dt : string) (net net' : client.Net)
    (rate : float) :
  client.doAPICall json_Unmarshal g from to dt net = (Ok rate, net') ->
  PrimFloat.ltb 0 rate = true.
Proof.
  intros H. destruct (doAPICall_answer _ _ _ _ _ _ _ H)
    as (body & response & _ & Hdec & _ & <- & Hle).
  apply float_positive; [exact Hle | exact (decoder_ok _ _ Hdec)].
Qed.

Lemma retryLoop_positive (remaining : nat) (lastErr : option error) (g : config.Globals)
    (from to date : string) (net net' : client.Net) (rate : float) :
  client.retryLoop json_Unmarshal remaining lastErr g from to date net = (Ok rate, net') ->
  PrimFloat.ltb 0 rate = true.
Proof.
  revert lastErr net. induction remaining as [|n IH]; intros lastErr net; simpl;
    [discriminate|].
  destruct (client.doAPICall json_Unmarshal g from to date net) as [[rate0|err] net0] eqn:E.
  - intros [= <- _]. exact (doAPICall_positive _ _ _ _ _ _ _ E).
  - apply IH.
Qed.

Lemma RateClient_positive :
  providerPositive (apiClient := client.RateClient json_Unmarshal).
Proof.
  intros g from to dateStr p rate p' H. exact (retryLoop_positive _ _ _ _ _ _ _ _ _ H).
Qed.

End client_facts.

Section table_facts.
Context {P : Type} {apiClient : api.ExchangeRateAPIClient P}.
Hypothesis provider_ok : providerPositive (apiClient := apiClient).

Lemma fetches_refl (w : World P) : onlySuccessfulFetches w w.
Proof. exists []. split; [now rewrite app_nil_r | now left]. Qed.

Lemma fetches_same_table (w w' : World P) (calls : list ApiCall) :
  apiLog w' = (apiLog w ++ calls)%list -> rateData w' = rateData w ->
  onlySuccessfulFetches w w'.
Proof. intros Hl Ht. exists calls. split; [exact Hl | intros key; left; now rewrite Ht]. Qed.

Lemma fetches_trans (w w1 w2 : World P) :
  onlySuccessfulFetches w w1 -> onlySuccessfulFetches w1 w2 ->
  onlySuccessfulFetches w w2.
Proof.
  intros (c1 & Hl1 & Hk1) (c2 & Hl2 & Hk2). exists (c1 ++ c2)%list.
  split; [now rewrite Hl2, Hl1, app_assoc|].
  intros key. destruct (Hk2 key) as [E2|(from & to & rate & t & -> & Hin & Hpos & E2)].
  - destruct (Hk1 key) as [E1|(from & to & rate & t & -> & Hin & Hpos & E1)].
    + left. congruence.
    + right. exists from, to, rate, t. repeat split; try assumption.
      * apply elem_of_app. now left.
      * congruence.
  - right. exists from, to, rate, t. repeat split; try assumption.
    apply elem_of_app. now right.
Qed.

Lemma fetches_store (w : World P) (from to dateStr : string) (rate : float) (p p' : P)
    (n : nat) :
  api.GetRate (globals w) from to dateStr p = (Ok rate, p') ->
  onlySuccessfulFetches w
    (mkWorld (globals w)
       (<[cache.buildRateKey from to := mkRateEntry rate (clock w (reads w))]> (rateData w))
       p' (apiLog w ++ [(from, to, "", Ok rate)]) (clock w) n).
Proof.
  intros Hcall. exists [(from, to, "", Ok rate)]. split; [reflexivity|].
  intros key. simpl. destruct (decide (cache.buildRateKey from to = key)) as [<-|Hne].
  - right. exists from, to, rate, (clock w (reads w)).
    split; [reflexivity|]. split; [apply list_elem_of_here|].
    split; [exact (provider_ok _ _ _ _ _ _ _ Hcall) | apply lookup_insert_eq].
  - left. now apply lookup_insert_ne.
Qed.

Lemma refreshPair_fetches (from to : string) (st : cache.refreshStats) (w : World P) :
  onlySuccessfulFetches w (cache.refreshPair from to st w).2.
Proof.
  rewrite refreshPair_run.
  destruct (api.GetRate (globals w) from to "" (provider w)) as [[rate|err] p'] eqn:E; simpl.
  - exact (fetches_store _ _ _ _ _ _ _ _ E).
  - now apply (fetches_same_table _ _ [(from, to, "", Err err)]).
Qed.

Lemma sweep_fetches (pairs : list (string * string)) (st : cache.refreshStats) (w : World P) :
  onlySuccessfulFetches w (sweep pairs st w).2.
Proof.
  revert st w. induction pairs as [|[a b] pairs IH]; intros st w; simpl.
  - apply fetches_refl.
  - run. pose proof (refreshPair_fetches a b st w) as H1.
    destruct (cache.refreshPair a b st w) as [st1 w1]. simpl in H1.
    exact (fetches_trans _ _ _ H1 (IH st1 w1)).
Qed.

Lemma dated_fetches (from to dateStr : string) (w : World P) :
  let m := d ← services.validateAndParseDate dateStr;
           match d with
           | Err err => mret (Err err)
           | Ok parsedDate =>
               v ← services.validateHistoricalRange parsedDate;
               match v with
               | Some err => mret (Err err)
               | None => callGetRate from to dateStr
               end
           end in
  exists calls, apiLog (m w).2 = (apiLog w ++ calls)%list /\ rateData (m w).2 = rateData w.
Proof.
  unfold services.validateAndParseDate, services.validateHistoricalRange. run.
  destruct (String.eqb dateStr ""); [exists []; now rewrite app_nil_r|].
  destruct (gotime.Parse dateStr) as [parsedDate|]; [|exists []; now rewrite app_nil_r].
  simpl. destruct (gotime.After parsedDate _); [exists []; now rewrite app_nil_r|].
  simpl. destruct (gotime.Before parsedDate _); [exists []; now rewrite app_nil_r|].
  simpl. destruct (api.GetRate (globals w) from to dateStr (provider w)) as [r p'].
  simpl. now exists [(from, to, dateStr, r)].
Qed.

Lemma getExchangeRateForPair_fetches (from to dateStr : string) (w : World P) :
  onlySuccessfulFetches w (services.getExchangeRateForPair from to dateStr w).2.
Proof.
  destruct (String.eqb dateStr "") eqn:Hd.
  - apply String.eqb_eq in Hd as ->.
    destruct (rateData w !! cache.buildRateKey from to) as [entry|] eqn:Hk.
    + rewrite (latest_hit _ _ _ _ Hk). apply fetches_refl.
    + rewrite (latest_miss _ _ _ Hk).
      destruct (api.GetRate (globals w) from to "" (provider w)) as [[rate|err] p'] eqn:E.
      * exact (fetches_store _ _ _ _ _ _ _ _ E).
      * now apply (fetches_same_table _ _ [(from, to, "", Err err)]).
  - unfold services.getExchangeRateForPair. rewrite Hd. simpl.
    destruct (dated_fetches from to dateStr w) as (calls & Hl & Ht).
    exact (fetches_same_table _ _ _ Hl Ht).
Qed.

Lemma step_fetches (w w' : World P) : step w w' -> onlySuccessfulFetches w w'.
Proof.
  intros [from to amt dt w0|from to dateStr w0|from to w0|w0|from to st w0].
  - unfold services.ConvertCurrencyAmount.
    destruct (services.validateCurrencyPair from to); [apply fetches_refl|].
    destruct (PrimFloat.ltb amt 0); [apply fetches_refl|].
    destruct (String.eqb from to); [apply fetches_refl|].
    run. pose proof (getExchangeRateForPair_fetches from to dt w0) as H.
    destruct (services.getExchangeRateForPair from to dt w0) as [[rate|err] w1]; exact H.
  - apply (fetches_same_table _ _ (drop (length (apiLog w0))
             (apiLog (services.GetHistoricalExchangeRate from to dateStr w0).2)));
      [|apply historical_table_kept].
    unfold services.GetHistoricalExchangeRate.
    destruct (services.validateCurrencyPair from to); [simpl; now rewrite drop_all, app_nil_r|].
    destruct (String.eqb from to); [simpl; now rewrite drop_all, app_nil_r|].
    destruct (dated_fetches from to dateStr w0) as (calls & Hl & _).
    revert Hl. unfold services.validateAndParseDate, services.validateHistoricalRange. run.
    destruct (String.eqb dateStr ""); [simpl; now rewrite drop_all, app_nil_r|].
    destruct (gotime.Parse dateStr) as [parsedDate|]; [|simpl; now rewrite drop_all, app_nil_r].
    simpl. destruct (gotime.After parsedDate _); [simpl; now rewrite drop_all, app_nil_r|].
    simpl. destruct (gotime.Before parsedDate _); [simpl; now rewrite drop_all, app_nil_r|].
    simpl. destruct (api.GetRate (globals w0) from to dateStr (provider w0)) as [[rate|err] p'];
      simpl; intros _; now rewrite drop_app_length.
  - unfold cache.GetRate. destruct (rateData w0 !! _); apply fetches_refl.
  - rewrite refreshAllRates_sweep. apply sweep_fetches.
  - apply refreshPair_fetches.
Qed.

Lemma invariant_kept (w w' : World P) :
  tableInvariant w -> onlySuccessfulFetches w w' -> tableInvariant w'.
Proof.
  intros Hinv (calls & Hl & Hk) key entry Hentry.
  destruct (Hk key) as [E|(from & to & rate & t & -> & Hin & Hpos & E)].
  - rewrite E in Hentry. destruct (Hinv key entry Hentry) as (Hpos & from & to & Hkey & Hin).
    split; [exact Hpos|]. exists from, to. split; [exact Hkey|].
    rewrite Hl. apply elem_of_app. now left.
  - rewrite E in Hentry. injection Hentry as <-. simpl.
    split; [exact Hpos|]. exists from, to. split; [reflexivity|].
    rewrite Hl. apply elem_of_app. now right.
Qed.

Lemma reachable_invariant (w : World P) : reachable w -> tableInvariant w.
Proof.
  induction 1 as [g p clk|w w' _ IH Hstep].
  - intros key entry H. simpl in H. now rewrite lookup_empty in H.
  - exact (invariant_kept _ _ IH (step_fetches _ _ Hstep)).
Qed.

End table_facts.

(** C8.  The table of the service wired to the provider client, whose
    decoder yields numbers.  The client answers with a rate only when that
    rate is positive (a reply that is not a success, or a rate that is not
    positive, is an error).  Each operation of the core leaves a key as it
    was, or stores under it the positive rate of a fetch of that operation
    which succeeded for a pair with that key, so a failed fetch neither
    creates nor replaces an entry.  Hence in every state reached from the
    new, empty cache, every entry holds a positive rate that a successful
    fetch returned for a pair with its key. *)
Theorem C8_entries_come_from_successful_fetches
    (json_Unmarshal : string -> result client.apiResp) :
  decodesNumbers json_Unmarshal ->
  providerPositive (apiClient := client.RateClient json_Unmarshal)
  /\ (forall w w' : World client.Net,
        step (apiClient := client.RateClient json_Unmarshal) w w' ->
        onlySuccessfulFetches w w')
  /\ (forall w : World client.Net,
        reachable (apiClient := client.RateClient json_Unmarshal) w ->
        tableInvariant w).
Proof.
  intros Hdec. pose proof (RateClient_positive _ Hdec) as Hpos.
  split; [exact Hpos|]. split.
  - intros w w'. apply step_fetches. exact Hpos.
  - intros w. apply reachable_invariant. exact Hpos.
Qed.

Lemma toyDecoder_numbers : decodesNumbers toyDecoder.
Proof.
  intros body response. unfold toyDecoder.
  destruct (String.eqb body "half"); [intros [= <-]; reflexivity|].
  destruct (String.eqb body "zero"); [intros [= <-]; reflexivity | discriminate].
Qed.

Lemma C8_entries_come_from_successful_fetches_witness :
  decodesNumbers toyDecoder
  /\ tableInvariant
       (services.ConvertCurrencyAmount (apiClient := client.RateClient toyDecoder)
          "USD" "EUR" 100 ""
          (cache.NewExchangeRateCache config.defaultGlobals halfNet
             (fun n => noon_2025_06_15 + Z.of_nat n))).2.
Proof.
  split; [exact toyDecoder_numbers|].
  apply (proj2 (proj2 (C8_entries_come_from_successful_fetches toyDecoder
                         toyDecoder_numbers))).
  eapply reach_step; [apply reach_new | apply step_convert].
Defined.

(** The client on three networks: a rate of one half; a rate of zero,
    refused on both tries; a server error, met on both tries. *)
Example client_half :
  let '(r, w) := services.ConvertCurrencyAmount (apiClient := client.RateClient toyDecoder)
                   "USD" "EUR" 100 ""
                   (cache.NewExchangeRateCache config.defaultGlobals halfNet (fun _ => 0)) in
  r = Ok 50%float
  /\ client.requests (provider w)
     = ["https://v6.exchangerate-api.com/v6/dc07747379a8a53ee8d3243c/pair/USD/EUR/1"]
  /\ exchangeRate <$> rateData w !! "USD-EUR" = Some 0.5%float.
Proof. vm_compute. repeat split; reflexivity. Qed.

Example client_zero_rate :
  let net := client.mkNet (fun _ _ => client.Response 200 "zero" None) [] in
  let '(r, w) := services.ConvertCurrencyAmount (apiClient := client.RateClient toyDecoder)
                   "USD" "EUR" 100 ""
                   (cache.NewExchangeRateCache config.defaultGlobals net (fun _ => 0)) in
  r = Err (ExchangeRateFailed (FailedAfterTries 2 (InvalidRate 0)))
  /\ length (client.requests (provider w)) = 2%nat
  /\ rateData w = ∅.
Proof. vm_compute. repeat split; reflexivity. Qed.

Example client_server_error :
  let net := client.mkNet (fun _ _ => client.Response 500 "oops" None) [] in
  let '(r, net') := client.GetRate toyDecoder config.defaultGlobals "USD" "EUR" "" net in
  r = Err (FailedAfterTries 2 (ApiHttpStatus 500 "oops"))
  /\ length (client.requests net') = 2%nat.
Proof. vm_compute. repeat split; reflexivity. Qed.

(** * Further properties of the code *)

(** ** The table: keys, writes and reads *)

Lemma hyphen_key_inj (a a' b b' : string) :
  hyphenFree a = true -> hyphenFree a' = true ->
  a ++ "-" ++ b = a' ++ "-" ++ b' -> a = a' /\ b = b'.
Proof.
  revert a'. induction a as [|c a IH]; intros [|c' a'] Ha Ha' H; simpl in *.
  - injection H as H. now split.
  - injection H as Hc _. subst c'. discriminate.
  - injection H as Hc _. subst c. discriminate.
  - injection H as Hc H. subst c'.
    apply andb_true_iff in Ha as [_ Ha]. apply andb_true_iff in Ha' as [_ Ha'].
    destruct (IH a' Ha Ha' H) as [-> ->]. now split.
Qed.

Lemma linearSearch_In (cleanCode : string) (l : list string) :
  config.linearSearch cleanCode l = true <-> cleanCode ∈ l.
Proof.
  induction l as [|x l IH]; simpl.
  - split; [discriminate | intros H; now apply not_elem_of_nil in H].
  - rewrite elem_of_cons. destruct (String.eqb x cleanCode) eqn:E.
    + apply String.eqb_eq in E. split; [intros _; left; now symmetry | reflexivity].
    + apply String.eqb_neq in E. rewrite IH. split; [now right|].
      intros [->|H]; [now destruct E | exact H].
Qed.

Lemma supported_iff_listed (code : string) :
  config.IsSupportedCurrency code = true
  <-> normalize code ∈ config.SupportedCurrencyList.
Proof.
  unfold config.IsSupportedCurrency. fold (normalize code).
  destruct (String.eqb (normalize code) "") eqn:E.
  - apply String.eqb_eq in E. rewrite E. split; [discriminate|].
    intros H. apply list_elem_of_In in H. simpl in H.
    repeat (destruct H as [H|H]; [discriminate|]). destruct H.
  - apply linearSearch_In.
Qed.

(** *** The spellings of a code *)

Lemma append_cons (c : ascii) (a b : string) : String c a ++ b = String c (a ++ b).
Proof. reflexivity. Qed.

Lemma append_empty (b : string) : "" ++ b = b.
Proof. reflexivity. Qed.

Lemma trimStart_blank_app (pre r : string) :
  blank pre = true -> gostrings.trimStart (pre ++ r) = gostrings.trimStart r.
Proof.
  induction pre as [|c pre IH]; [reflexivity|].
  rewrite append_cons. simpl.
  intros H. apply andb_true_iff in H as [Hc Hpre]. rewrite Hc. now apply IH.
Qed.

Lemma trimStop_blank (post : string) : blank post = true -> gostrings.trimStop post = "".
Proof.
  induction post as [|c post IH]; simpl; [reflexivity|].
  intros H. apply andb_true_iff in H as [Hc Hpost]. now rewrite (IH Hpost), Hc.
Qed.

Lemma trimStart_blank (post : string) : blank post = true -> gostrings.trimStart post = "".
Proof.
  induction post as [|c post IH]; simpl; [reflexivity|].
  intros H. apply andb_true_iff in H as [Hc Hpost]. rewrite Hc. now apply IH.
Qed.

Lemma trimStop_app_blank (a post : string) :
  blank post = true -> gostrings.trimStop (a ++ post) = gostrings.trimStop a.
Proof.
  intros H. induction a as [|c a IH].
  - rewrite append_empty. now apply trimStop_blank.
  - rewrite append_cons. simpl. now rewrite IH.
Qed.

Lemma trimStart_split (s : string) :
  exists pre, s = pre ++ gostrings.trimStart s /\ blank pre = true.
Proof.
  induction s as [|c s (pre & E & Hpre)]; simpl.
  - now exists "".
  - destruct (gostrings.asciiSpace c) eqn:Hc.
    + exists (String c pre). rewrite append_cons. simpl. rewrite Hc, Hpre.
      split; [congruence | reflexivity].
    + now exists "".
Qed.

Lemma trimStop_split (s : string) :
  exists post, s = gostrings.trimStop s ++ post /\ blank post = true.
Proof.
  induction s as [|c s (post & E & Hpost)]; simpl.
  - now exists "".
  - destruct (gostrings.trimStop s) as [|c' r].
    + rewrite append_empty in E. subst post. destruct (gostrings.asciiSpace c) eqn:Hc.
      * exists (String c s). rewrite append_empty. simpl. now rewrite Hc, Hpost.
      * exists s. now rewrite append_cons, append_empty.
    + exists post. rewrite append_cons. split; [congruence | exact Hpost].
Qed.

(** [TrimSpace] takes white space off the two ends, and nothing else. *)
Lemma TrimSpace_split (s : string) :
  exists pre post,
    s = pre ++ gostrings.TrimSpace s ++ post /\ blank pre = true /\ blank post = true.
Proof.
  destruct (trimStart_split s) as (pre & E1 & Hpre).
  destruct (trimStop_split (gostrings.trimStart s)) as (post & E2 & Hpost).
  exists pre, post. unfold gostrings.TrimSpace.
  split; [|now split]. now rewrite <- E2.
Qed.

Lemma trimStart_spaceFree (s : string) : spaceFree s = true -> gostrings.trimStart s = s.
Proof.
  destruct s as [|c s]; simpl; [reflexivity|].
  intros H. apply andb_true_iff in H as [Hc _]. apply negb_true_iff in Hc.
  now rewrite Hc.
Qed.

Lemma trimStop_spaceFree (s : string) : spaceFree s = true -> gostrings.trimStop s = s.
Proof.
  induction s as [|c s IH]; simpl; [reflexivity|].
  intros H. apply andb_true_iff in H as [Hc Hs]. apply negb_true_iff in Hc.
  rewrite (IH Hs). destruct s; [now rewrite Hc | reflexivity].
Qed.

Lemma TrimSpace_tight (pre body post : string) :
  blank pre = true -> blank post = true -> spaceFree body = true ->
  gostrings.TrimSpace (pre ++ body ++ post) = body.
Proof.
  intros Hpre Hpost Hbody. unfold gostrings.TrimSpace.
  rewrite (trimStart_blank_app _ _ Hpre).
  destruct body as [|c body].
  - rewrite append_empty, (trimStart_blank _ Hpost). reflexivity.
  - rewrite append_cons.
    assert (gostrings.trimStart (String c (body ++ post)) = String c (body ++ post)) as ->.
    { simpl in *. apply andb_true_iff in Hbody as [Hc _]. apply negb_true_iff in Hc.
      now rewrite Hc. }
    rewrite <- append_cons.
    rewrite (trimStop_app_blank _ _ Hpost). now apply trimStop_spaceFree.
Qed.

Lemma upperByte_cases (a : ascii) :
  Ascii.eqb a (gostrings.upperByte a) || Ascii.eqb a (lowerOf (gostrings.upperByte a)) = true.
Proof. destruct a as [[] [] [] [] [] [] [] []]; reflexivity. Qed.

Lemma letter_either_case (a b : ascii) :
  upperLetter b = true ->
  Ascii.eqb a b || Ascii.eqb a (lowerOf b) = true ->
  gostrings.upperByte a = b /\ gostrings.asciiSpace a = false.
Proof.
  intros Hb H. apply orb_true_iff in H as [H|H]; apply Ascii.eqb_eq in H; subst a;
    destruct b as [[] [] [] [] [] [] [] []]; try discriminate Hb; now split.
Qed.

Lemma ToUpper_caseVariant (s : string) : caseVariant s (gostrings.ToUpper s) = true.
Proof.
  induction s as [|a s IH]; simpl; [reflexivity|].
  now rewrite upperByte_cases, IH.
Qed.

Lemma caseVariant_ToUpper (s code : string) :
  upperLetters code = true -> caseVariant s code = true ->
  gostrings.ToUpper s = code /\ spaceFree s = true.
Proof.
  revert code. induction s as [|a s IH]; intros [|b code] Hup H; simpl in *;
    try discriminate; [now split|].
  apply andb_true_iff in Hup as [Hb Hup]. apply andb_true_iff in H as [Hab H].
  destruct (letter_either_case _ _ Hb Hab) as [-> Hsp].
  destruct (IH _ Hup H) as [-> Hfree]. now rewrite Hsp, Hfree.
Qed.

Lemma supported_upperLetters (code : string) :
  code ∈ config.SupportedCurrencyList -> upperLetters code = true /\ code <> "".
Proof.
  intros H. apply list_elem_of_In in H. simpl in H.
  repeat (destruct H as [<-|H]; [now split|]). destruct H.
Qed.

(** X1.  The spellings that [IsSupportedCurrency] accepts.  A code of
    ASCII bytes is supported exactly when it is one of the five listed
    codes, each letter in upper or lower case, with any white space (tab,
    line feed, vertical tab, form feed, carriage return, space) before and
    after it, and none inside. *)
Theorem IsSupportedCurrency_spellings (code : string) :
  gostrings.isASCII code = true ->
  (config.IsSupportedCurrency code = true
   <-> exists pre body post listed,
         code = pre ++ body ++ post
         /\ blank pre = true /\ blank post = true
         /\ listed ∈ config.SupportedCurrencyList
         /\ caseVariant body listed = true).
Proof.
  intros _. rewrite supported_iff_listed. unfold normalize. split.
  - intros Hin. destruct (TrimSpace_split code) as (pre & post & E & Hpre & Hpost).
    exists pre, (gostrings.TrimSpace code), post,
      (gostrings.ToUpper (gostrings.TrimSpace code)).
    split; [exact E|]. split; [exact Hpre|]. split; [exact Hpost|].
    split; [exact Hin | apply ToUpper_caseVariant].
  - intros (pre & body & post & listed & -> & Hpre & Hpost & Hin & Hcase).
    destruct (supported_upperLetters _ Hin) as [Hup _].
    destruct (caseVariant_ToUpper _ _ Hup Hcase) as [Hupper Hfree].
    now rewrite (TrimSpace_tight _ _ _ Hpre Hpost Hfree), Hupper.
Qed.

Lemma IsSupportedCurrency_spellings_witness :
  gostrings.isASCII " uSd " = true
  /\ config.IsSupportedCurrency " uSd " = true.
Proof.
  split; [reflexivity|].
  apply (proj2 (IsSupportedCurrency_spellings " uSd " eq_refl)).
  exists " ", "uSd", " ", "USD".
  split; [reflexivity|]. split; [reflexivity|]. split; [reflexivity|].
  split; [apply list_elem_of_here | reflexivity].
Defined.

(** A byte at or above 0x80 is outside the model: in it a code with a
    no-break space (the bytes 0xC2 0xA0) in front is not supported, while
    the library trims the no-break space. *)
Example outside_ascii :
  let code := String (ascii_of_N 194) (String (ascii_of_N 160) "USD") in
  gostrings.isASCII code = false /\ config.IsSupportedCurrency code = false.
Proof. split; reflexivity. Qed.

Lemma supported_hyphenFree (code : string) :
  config.IsSupportedCurrency code = true -> hyphenFree (normalize code) = true.
Proof.
  intros H. apply supported_iff_listed in H.
  apply list_elem_of_In in H. simpl in H.
  repeat (destruct H as [<-|H]; [reflexivity|]). destruct H.
Qed.

(** X2.  A rate stored for a pair is what [GetRate] then finds for every
    spelling of that pair (codes with the same normal forms), whatever the
    table held before. *)
Theorem SetRate_then_GetRate
    {P : Type} (from to from' to' : string) (rate : float) (w : World P) :
  normalize from' = normalize from ->
  normalize to' = normalize to ->
  (cache.GetRate from' to' (cache.SetRate from to rate w).2).1 = (rate, true).
Proof.
  intros Hf Ht. unfold cache.GetRate, cache.SetRate, cache.buildRateKey. run.
  fold (normalize from) (normalize to) (normalize from') (normalize to').
  rewrite Hf, Ht. now rewrite lookup_insert_eq.
Qed.

Lemma SetRate_then_GetRate_witness :
  normalize " usd" = normalize "USD"
  /\ normalize "eur " = normalize "Eur"
  /\ (cache.GetRate " usd" "eur "
        (cache.SetRate "USD" "Eur" 0.5 (freshWorld [] noon_2025_06_15)).2).1
     = (0.5%float, true).
Proof.
  split; [reflexivity|]. split; [reflexivity|].
  apply (SetRate_then_GetRate "USD" "Eur" " usd" "eur "); reflexivity.
Defined.

(** X3.  For codes of ASCII bytes, storing a rate for one pair does not
    change what [GetRate] finds for a pair with other normal forms, as
    long as the first code of each pair has no hyphen in its normal form
    (as every supported code). *)
Theorem SetRate_other_pair
    {P : Type} (from to from' to' : string) (rate : float) (w : World P) :
  forallb gostrings.isASCII [from; to; from'; to'] = true ->
  hyphenFree (normalize from) = true ->
  hyphenFree (normalize from') = true ->
  (normalize from, normalize to) <> (normalize from', normalize to') ->
  (cache.GetRate from' to' (cache.SetRate from to rate w).2).1
  = (cache.GetRate from' to' w).1.
Proof.
  intros _ Hf Hf' Hne. unfold cache.GetRate, cache.SetRate. run.
  rewrite lookup_insert_ne;
    [destruct (rateData w !! cache.buildRateKey from' to'); reflexivity|].
  unfold cache.buildRateKey.
  fold (normalize from) (normalize to) (normalize from') (normalize to').
  intros Hkey. destruct (hyphen_key_inj _ _ _ _ Hf Hf' Hkey) as [E1 E2].
  apply Hne. now rewrite E1, E2.
Qed.

Lemma SetRate_other_pair_witness :
  forallb gostrings.isASCII ["USD"; "EUR"; "usd"; "GBP"] = true
  /\ hyphenFree (normalize "USD") = true
  /\ hyphenFree (normalize "usd") = true
  /\ (normalize "USD", normalize "EUR") <> (normalize "usd", normalize "GBP")
  /\ (cache.GetRate "usd" "GBP"
        (cache.SetRate "USD" "EUR" 0.5 (freshWorld [] noon_2025_06_15)).2).1
     = (cache.GetRate "usd" "GBP" (freshWorld [] noon_2025_06_15)).1.
Proof.
  split; [reflexivity|]. split; [reflexivity|]. split; [reflexivity|].
  split; [discriminate|].
  apply (SetRate_other_pair "USD" "EUR" "usd" "GBP");
    [reflexivity | reflexivity | reflexivity | discriminate].
Defined.

(** Without the condition two pairs can share a key. *)
Example key_shared_by_two_pairs :
  cache.buildRateKey "A-B" "C" = cache.buildRateKey "A" "B-C".
Proof. reflexivity. Qed.

(** ** The conversion service: order of the checks, identity, dated requests *)

(** X4.  The currency codes are checked before anything else, the source
    code first: with an unsupported code (the codes being of ASCII bytes)
    both operations fail with the unsupported-currency error naming the
    code as it was given, whatever the amount and the date are, and the
    state is left as it was. *)
Theorem unsupported_currency_first
    {P : Type} {apiClient : api.ExchangeRateAPIClient P}
    (from to : string) (amt : float) (dt : string) (w : World P) :
  gostrings.isASCII from = true ->
  gostrings.isASCII to = true ->
  config.IsSupportedCurrency from && config.IsSupportedCurrency to = false ->
  let err := if config.IsSupportedCurrency from then UnsupportedTarget to
             else UnsupportedSource from in
  services.ConvertCurrencyAmount from to amt dt w = (Err err, w)
  /\ services.GetHistoricalExchangeRate from to dt w = (Err err, w)
  /\ errorKind err = UnsupportedCurrency.
Proof.
  intros _ _ H.
  unfold services.ConvertCurrencyAmount, services.GetHistoricalExchangeRate,
    services.validateCurrencyPair.
  destruct (config.IsSupportedCurrency from); simpl in *.
  - rewrite H. simpl. repeat split.
  - repeat split.
Qed.

Lemma unsupported_currency_first_witness :
  gostrings.isASCII "USD" = true
  /\ gostrings.isASCII "CHF" = true
  /\ config.IsSupportedCurrency "USD" && config.IsSupportedCurrency "CHF" = false
  /\ services.ConvertCurrencyAmount "USD" "CHF" (-1) "junk" (freshWorld [] 0)
     = (Err (UnsupportedTarget "CHF"), freshWorld [] 0).
Proof.
  split; [reflexivity|]. split; [reflexivity|]. split; [reflexivity|].
  exact (proj1 (unsupported_currency_first "USD" "CHF" (-1) "junk" (freshWorld [] 0)
                  eq_refl eq_refl eq_refl)).
Defined.

(** X5.  When the two codes are the same string and supported, no rate is
    resolved: a conversion returns the amount itself for every amount that
    is not below zero, and the historical rate is 1 for every date string,
    a malformed or a future one included; the state is left as it was. *)
Theorem same_code_is_identity
    {P : Type} {apiClient : api.ExchangeRateAPIClient P}
    (code : string) (amt : float) (dt : string) (w : World P) :
  config.IsSupportedCurrency code = true ->
  (PrimFloat.ltb amt 0 = false ->
   services.ConvertCurrencyAmount code code amt dt w = (Ok amt, w))
  /\ services.GetHistoricalExchangeRate code code dt w = (Ok 1%float, w).
Proof.
  intros Hs. split.
  - intros Ha. now apply ConvertCurrencyAmount_same_string.
  - unfold services.GetHistoricalExchangeRate.
    now rewrite (validateCurrencyPair_supported _ _ Hs Hs), String.eqb_refl.
Qed.

Lemma same_code_is_identity_witness :
  config.IsSupportedCurrency " eur" = true
  /\ services.GetHistoricalExchangeRate " eur" " eur" "2999-99-99" (freshWorld [] 0)
     = (Ok 1%float, freshWorld [] 0).
Proof.
  split; [reflexivity|].
  exact (proj2 (same_code_is_identity " eur" 0 "2999-99-99" (freshWorld [] 0) eq_refl)).
Defined.

(** X6.  A conversion with a date is the amount times the historical
    rate: for supported codes given as different strings, an amount not
    below zero and a date string that is not empty, [ConvertCurrencyAmount]
    ends in the state in which [GetHistoricalExchangeRate] ends, with the
    amount multiplied by its rate, or with its error wrapped as "failed to
    get exchange rate"; the table is not written, also on success. *)
Theorem convert_with_date
    {P : Type} {apiClient : api.ExchangeRateAPIClient P}
    (from to : string) (amt : float) (dt : string) (w : World P) :
  config.IsSupportedCurrency from = true ->
  config.IsSupportedCurrency to = true ->
  PrimFloat.ltb amt 0 = false ->
  from <> to ->
  dt <> "" ->
  let '(h, wh) := services.GetHistoricalExchangeRate from to dt w in
  services.ConvertCurrencyAmount from to amt dt w
  = (match h with
     | Ok rate => Ok (PrimFloat.mul amt rate)
     | Err (HistoricalFetchFailed cause) => Err (ExchangeRateFailed cause)
     | Err err => Err (ExchangeRateFailed err)
     end, wh)
  /\ rateData wh = rateData w.
Proof.
  intros Hf Ht Ha Hne Hdt.
  pose proof (historical_table_kept from to dt w) as Hkept.
  rewrite (ConvertCurrencyAmount_resolves _ _ _ _ _ Hf Ht Ha Hne).
  revert Hkept.
  unfold services.GetHistoricalExchangeRate, services.getExchangeRateForPair,
    services.validateAndParseDate, services.validateHistoricalRange.
  rewrite (validateCurrencyPair_supported _ _ Hf Ht).
  apply String.eqb_neq in Hne, Hdt. rewrite Hne, Hdt. run.
  destruct (gotime.Parse dt) as [parsedDate|]; [|now split].
  simpl. destruct (gotime.After parsedDate _); [now split|].
  simpl. destruct (gotime.Before parsedDate _); [now split|].
  simpl. destruct (api.GetRate (globals w) from to dt (provider w)) as [[rate|err] p'];
    now split.
Qed.

Lemma convert_with_date_witness :
  config.IsSupportedCurrency "USD" = true
  /\ config.IsSupportedCurrency "EUR" = true
  /\ PrimFloat.ltb 100 0 = false
  /\ "USD" <> "EUR"
  /\ "2025-06-01" <> ""
  /\ (let w := freshWorld [Ok 0.5%float] noon_2025_06_15 in
      let '(h, wh) := services.GetHistoricalExchangeRate "USD" "EUR" "2025-06-01" w in
      services.ConvertCurrencyAmount "USD" "EUR" 100 "2025-06-01" w
      = (match h with
         | Ok rate => Ok (PrimFloat.mul 100 rate)
         | Err (HistoricalFetchFailed cause) => Err (ExchangeRateFailed cause)
         | Err err => Err (ExchangeRateFailed err)
         end, wh)
      /\ rateData wh = rateData w).
Proof.
  split; [reflexivity|]. split; [reflexivity|]. split; [reflexivity|].
  split; [discriminate|]. split; [discriminate|].
  apply (convert_with_date "USD" "EUR" 100 "2025-06-01"
           (freshWorld [Ok 0.5%float] noon_2025_06_15));
    [reflexivity | reflexivity | reflexivity | discriminate | discriminate].
Defined.

Example convert_with_date_value :
  (services.ConvertCurrencyAmount "USD" "EUR" 100 "2025-06-01"
     (freshWorld [Ok 0.5%float] noon_2025_06_15)).1 = Ok 50%float.
Proof. vm_compute. reflexivity. Qed.

(** ** The window of accepted dates, in days *)

(** A parsed date is the first instant of a day. *)
Lemma Parse_midnight (dateStr : string) (t : Z) :
  gotime.Parse dateStr = Some t ->
  t = (t / gotime.nanosPerDay) * gotime.nanosPerDay.
Proof.
  unfold gotime.Parse.
  destruct (gotime.getYear dateStr) as [[year v1]|]; [|discriminate].
  destruct (gotime.skipDash v1) as [v2|]; [|discriminate].
  destruct (gotime.getnum v2) as [[month v3]|]; [|discriminate].
  destruct ((month <=? 0) || (12 <? month)); [discriminate|].
  destruct (gotime.skipDash v3) as [v4|]; [|discriminate].
  destruct (gotime.getnum v4) as [[day v5]|]; [|discriminate].
  destruct v5; [|discriminate].
  destruct ((day <? 1) || (gotime.daysIn month year <? day)); [discriminate|].
  intros [= <-]. unfold gotime.Date. cbv zeta.
  rewrite Z.div_mul; [reflexivity | vm_compute; discriminate].
Qed.

(** The lookbacks for which [AddDate] does not wrap around, on 2025-06-15
    at noon: up to a hundred million million days either way. *)
Example addDateInRange_wide :
  gotime.addDateInRange noon_2025_06_15 (- 100000000000000) = true
  /\ gotime.addDateInRange noon_2025_06_15 100000000000000 = true
  /\ gotime.addDateInRange noon_2025_06_15 (- 120000000000000) = false
  /\ gotime.addDateInRange noon_2025_06_15 120000000000000 = false.
Proof. vm_compute. repeat split; reflexivity. Qed.

(** X7.  The dates accepted on a day.  Let the lookback be at least
    zero and such that [AddDate] does not wrap around, let both readings
    of the clock fall on day [today] (counted from
    the epoch), the second one after midnight, and let the date string
    denote day [d].  Then a day after
    [today] is refused as a future date, a day up to [today] minus the
    lookback is refused as too far in the past, both without a provider
    call, and the days in between, [today - lookback + 1] to [today], are
    passed on to the provider: as many days as the lookback counts, today
    included. *)
Theorem accepted_days
    {P : Type} {apiClient : api.ExchangeRateAPIClient P}
    (from to dateStr : string) (t today : Z) (w : World P) :
  config.IsSupportedCurrency from = true ->
  config.IsSupportedCurrency to = true ->
  from <> to ->
  gotime.Parse dateStr = Some t ->
  0 <= config.MaxHistoricalDays (globals w) ->
  gotime.addDateInRange (clock w (S (reads w))) (- config.MaxHistoricalDays (globals w))
  = true ->
  today * gotime.nanosPerDay <= clock w (reads w) < (today + 1) * gotime.nanosPerDay ->
  today * gotime.nanosPerDay < clock w (S (reads w)) < (today + 1) * gotime.nanosPerDay ->
  let d := t / gotime.nanosPerDay in
  let lookback := config.MaxHistoricalDays (globals w) in
  let '(r, w') := services.GetHistoricalExchangeRate from to dateStr w in
  (today < d -> r = Err (DateInFuture dateStr) /\ apiLog w' = apiLog w)
  /\ (d <= today - lookback -> r = Err (DateTooFarPast lookback) /\ apiLog w' = apiLog w)
  /\ (today - lookback < d <= today ->
      let '(a, p') := api.GetRate (globals w) from to dateStr (provider w) in
      r = match a with
          | Ok historicalRate => Ok historicalRate
          | Err err => Err (HistoricalFetchFailed err)
          end
      /\ apiLog w' = (apiLog w ++ [(from, to, dateStr, a)])%list).
Proof.
  intros Hf Ht Hne Hparse Hback _ Hnow1 Hnow2 d lookback. fold lookback in Hback.
  pose proof (Parse_midnight _ _ Hparse) as Hmid. fold d in Hmid. clearbody d.
  unfold gotime.Time in *.
  assert (0 < gotime.nanosPerDay) as Hpos by (vm_compute; reflexivity).
  assert (forall a b, a <= b -> a * gotime.nanosPerDay <= b * gotime.nanosPerDay) as Hmul
    by (intros; apply Z.mul_le_mono_nonneg_r; lia).
  destruct (Z_lt_le_dec today d) as [Hfut|Hpast].
  - pose proof (Hmul (today + 1) d ltac:(lia)).
    rewrite (historical_future _ _ _ _ _ Hf Ht Hne Hparse) by lia.
    split; [now split|]. split; intros; lia.
  - pose proof (Hmul d today Hpast).
    destruct (Z_le_gt_dec d (today - lookback)) as [Hold|Hin].
    + pose proof (Hmul (d + lookback) today ltac:(lia)).
      rewrite (historical_out_of_range _ _ _ _ _ Hf Ht Hne Hparse); [| lia |].
      * split; [intros; lia|]. split; [now split | intros; lia].
      * fold lookback. lia.
    + pose proof (Hmul (today + 1) (d + lookback) ltac:(lia)).
      assert (historicalValid from to dateStr w) as Hvalid.
      { split; [exact Hf|]. split; [exact Ht|]. split; [exact Hne|].
        exists t. split; [exact Hparse|]. fold lookback. split; lia. }
      rewrite (historical_valid_call _ _ _ _ Hvalid).
      destruct (api.GetRate (globals w) from to dateStr (provider w)) as [a p'].
      split; [intros; lia|]. split; [intros; lia|]. intros _. now split.
Qed.

Lemma accepted_days_witness :
  config.IsSupportedCurrency "USD" = true
  /\ config.IsSupportedCurrency "EUR" = true
  /\ "USD" <> "EUR"
  /\ gotime.Parse "2025-03-18" = Some (20165 * gotime.nanosPerDay)
  /\ 0 <= config.MaxHistoricalDays (globals (freshWorld [Ok 0.5%float] noon_2025_06_15))
  /\ (let w := freshWorld [Ok 0.5%float] noon_2025_06_15 in
      gotime.addDateInRange (clock w (S (reads w))) (- config.MaxHistoricalDays (globals w))
      = true)
  /\ (let w := freshWorld [Ok 0.5%float] noon_2025_06_15 in
      let '(r, w') := services.GetHistoricalExchangeRate "USD" "EUR" "2025-03-18" w in
      20254 - 90 < 20165 * gotime.nanosPerDay / gotime.nanosPerDay <= 20254 ->
      let '(a, p') := api.GetRate (globals w) "USD" "EUR" "2025-03-18" (provider w) in
      r = match a with
          | Ok historicalRate => Ok historicalRate
          | Err err => Err (HistoricalFetchFailed err)
          end
      /\ apiLog w' = (apiLog w ++ [("USD", "EUR", "2025-03-18", a)])%list).
Proof.
  split; [reflexivity|]. split; [reflexivity|]. split; [discriminate|].
  split; [vm_compute; reflexivity|]. split; [vm_compute; discriminate|].
  split; [vm_compute; reflexivity|].
  pose proof (accepted_days "USD" "EUR" "2025-03-18" (20165 * gotime.nanosPerDay) 20254
                (freshWorld [Ok 0.5%float] noon_2025_06_15) eq_refl eq_refl) as H.
  cbv zeta in H.
  cbv zeta in *.
  destruct (services.GetHistoricalExchangeRate "USD" "EUR" "2025-03-18"
              (freshWorld [Ok 0.5%float] noon_2025_06_15)) as [r w'].
  apply H.
  - discriminate.
  - vm_compute. reflexivity.
  - vm_compute. discriminate.
  - vm_compute. reflexivity.
  - split; [apply Z.leb_le | apply Z.ltb_lt]; vm_compute; reflexivity.
  - split; apply Z.ltb_lt; vm_compute; reflexivity.
Defined.

(** X8.  A lookback below zero, which the configuration accepts, closes
    the historical endpoint: if the clock does not run backwards between
    its two readings and [AddDate] does not wrap around (a lookback down
    to minus a hundred million million days does not),
    [GetHistoricalExchangeRate] for two different supported codes fails
    for every date string and never calls the provider. *)
Theorem negative_lookback_refuses_all
    {P : Type} {apiClient : api.ExchangeRateAPIClient P}
    (from to dateStr : string) (w : World P) :
  config.IsSupportedCurrency from = true ->
  config.IsSupportedCurrency to = true ->
  from <> to ->
  config.MaxHistoricalDays (globals w) < 0 ->
  gotime.addDateInRange (clock w (S (reads w))) (- config.MaxHistoricalDays (globals w))
  = true ->
  clock w (reads w) <= clock w (S (reads w)) ->
  let '(r, w') := services.GetHistoricalExchangeRate from to dateStr w in
  (exists err, r = Err err
               /\ errorKind err ∈ [InvalidDateFormat; FutureDate; DateOutOfRange])
  /\ apiLog w' = apiLog w /\ provider w' = provider w /\ rateData w' = rateData w.
Proof.
  intros Hf Ht Hne Hneg _ Hmono.
  unfold services.GetHistoricalExchangeRate, services.validateAndParseDate,
    services.validateHistoricalRange.
  rewrite (validateCurrencyPair_supported _ _ Hf Ht).
  apply String.eqb_neq in Hne. rewrite Hne. run.
  destruct (String.eqb dateStr "").
  { split; [|now repeat split]. exists DateEmpty. split; [reflexivity|]. simpl.
    apply list_elem_of_here. }
  destruct (gotime.Parse dateStr) as [t|].
  2:{ split; [|now repeat split]. exists (BadDateFormat dateStr). split; [reflexivity|].
      simpl. apply list_elem_of_here. }
  simpl. destruct (gotime.After t (clock w (reads w))) eqn:Hafter.
  { split; [|now repeat split]. exists (DateInFuture dateStr). split; [reflexivity|].
    simpl. apply list_elem_of_further, list_elem_of_here. }
  simpl. apply Z.ltb_ge in Hafter.
  assert (0 < gotime.nanosPerDay) as Hpos by (vm_compute; reflexivity).
  replace (gotime.Before t _) with true
    by (symmetry; apply Z.ltb_lt; unfold gotime.AddDays; nia).
  split; [|now repeat split].
  exists (DateTooFarPast (config.MaxHistoricalDays (globals w))). split; [reflexivity|].
  simpl. do 2 apply list_elem_of_further. apply list_elem_of_here.
Qed.

Lemma negative_lookback_refuses_all_witness :
  let w := mkWorld (config.mkGlobals "http://rates" "key" (-1)) ∅ [Ok 0.5%float] []
             (fun n => noon_2025_06_15 + Z.of_nat n) 0 in
  config.IsSupportedCurrency "USD" = true
  /\ config.IsSupportedCurrency "EUR" = true
  /\ "USD" <> "EUR"
  /\ config.MaxHistoricalDays (globals w) < 0
  /\ gotime.addDateInRange (clock w (S (reads w))) (- config.MaxHistoricalDays (globals w))
     = true
  /\ clock w (reads w) <= clock w (S (reads w))
  /\ (let '(r, w') := services.GetHistoricalExchangeRate "USD" "EUR" "2025-06-15" w in
      (exists err, r = Err err
                   /\ errorKind err ∈ [InvalidDateFormat; FutureDate; DateOutOfRange])
      /\ apiLog w' = apiLog w /\ provider w' = provider w /\ rateData w' = rateData w).
Proof.
  intros w.
  assert (clock w (reads w) <= clock w (S (reads w))) as Hmono
    by (apply Z.leb_le; vm_compute; reflexivity).
  split; [reflexivity|]. split; [reflexivity|]. split; [discriminate|].
  split; [reflexivity|]. split; [vm_compute; reflexivity|]. split; [exact Hmono|].
  apply (negative_lookback_refuses_all "USD" "EUR" "2025-06-15" w);
    [reflexivity | reflexivity | discriminate | reflexivity | vm_compute; reflexivity
     | exact Hmono].
Defined.

(** ** The provider client: tries and requests *)

Lemma doAPICall_net (json_Unmarshal : string -> result client.apiResp)
    (g : config.Globals) (from to dt : string) (net : client.Net) :
  (client.doAPICall json_Unmarshal g from to dt net).2
  = client.mkNet (client.respond net)
      (client.requests net
       ++ [config.ExternalAPIBaseURL g ++ client.buildEndpoint g from to dt]).
Proof.
  unfold client.doAPICall, client.Get.
  destruct (client.respond net _ _) as [cause|StatusCode body readErr]; [reflexivity|].
  destruct (negb (StatusCode =? 200)); [reflexivity|].
  destruct readErr; [reflexivity|].
  destruct (json_Unmarshal body) as [response|err]; [|reflexivity].
  destruct (negb (String.eqb (client.Result response) "success")); [reflexivity|].
  destruct (PrimFloat.leb (client.ConversionRate response) 0); reflexivity.
Qed.

(** X9.  One call of the client's [GetRate] sends one request when the
    first try gives a rate, and two otherwise, never more and never none,
    all to the same address.  After two tries the result is the rate of
    the second try, or "failed after 2 tries" around the error of the
    second try; the error of the first try is dropped. *)
Theorem client_GetRate_tries
    (json_Unmarshal : string -> result client.apiResp)
    (g : config.Globals) (from to date : string) (net : client.Net) :
  let url := config.ExternalAPIBaseURL g ++ client.buildEndpoint g from to date in
  let '(r1, net1) := client.doAPICall json_Unmarshal g from to date net in
  let '(r2, net2) := client.doAPICall json_Unmarshal g from to date net1 in
  let '(r, net') := client.GetRate json_Unmarshal g from to date net in
  client.respond net' = client.respond net
  /\ match r1 with
     | Ok rate =>
         r = Ok rate /\ client.requests net' = (client.requests net ++ [url])%list
     | Err _ =>
         client.requests net' = (client.requests net ++ [url; url])%list
         /\ r = match r2 with
                | Ok rate => Ok rate
                | Err err2 => Err (FailedAfterTries 2 err2)
                end
     end.
Proof.
  intros url. unfold client.GetRate. simpl.
  pose proof (doAPICall_net json_Unmarshal g from to date net) as H1.
  destruct (client.doAPICall json_Unmarshal g from to date net) as [r1 net1].
  simpl in H1. subst net1.
  pose proof (doAPICall_net json_Unmarshal g from to date
                (client.mkNet (client.respond net) (client.requests net ++ [url]))) as H2.
  destruct (client.doAPICall json_Unmarshal g from to date _) as [r2 net2].
  simpl in H2. subst net2.
  destruct r1 as [rate|err1]; [now repeat split|].
  destruct r2 as [rate|err2]; simpl; rewrite <- app_assoc; now repeat split.
Qed.

(** ** The refresh sweep: its summary, and the requests after it *)

Section sweep_summary.
Context {P : Type} {exchangeAPIClient : api.ExchangeRateAPIClient P}.

Lemma sweep_failedPairs (pairs : list (string * string)) (st : cache.refreshStats)
    (w : World P) :
  cache.failedPairs (sweep pairs st w).1
  = (cache.failedPairs st
     ++ failedIdentifiers pairs (providerRun (globals w) pairs (provider w)).1)%list.
Proof.
  revert st w. induction pairs as [|[a b] pairs IH]; intros st w; simpl.
  - now rewrite app_nil_r.
  - run. rewrite refreshPair_run.
    destruct (api.GetRate (globals w) a b "" (provider w)) as [[rate|err] p1];
      cbv beta iota zeta; rewrite IH; simpl;
      destruct (providerRun (globals w) pairs p1) as [answers pEnd]; simpl.
    + reflexivity.
    + now rewrite <- app_assoc.
Qed.

Lemma failedIdentifiers_length (pairs : list (string * string))
    (answers : list (result float)) :
  length answers = length pairs ->
  countOk answers + Z.of_nat (length (failedIdentifiers pairs answers))
  = Z.of_nat (length pairs).
Proof.
  revert answers. induction pairs as [|[a b] pairs IH]; intros [|[rate|err] answers] H;
    simpl in *; try discriminate; try reflexivity.
  - injection H as H. specialize (IH _ H). lia.
  - injection H as H. specialize (IH _ H). lia.
Qed.

End sweep_summary.

(** X10.  The summary of a sweep adds up: the list of failed pairs holds
    the identifiers "FROM-TO" of the pairs whose fetch failed, in the
    order of the sweep, and the updates counted as successful plus the
    failed pairs are the 20 pairs of the sweep. *)
Theorem refresh_summary_adds_up
    {P : Type} {exchangeAPIClient : api.ExchangeRateAPIClient P} (w : World P) :
  let pairs := sweepPairs config.GetSupportedCurrencies in
  let answers := (providerRun (globals w) pairs (provider w)).1 in
  let st := (cache.refreshAllRates w).1 in
  cache.failedPairs st = failedIdentifiers pairs answers
  /\ cache.successfulUpdates st + Z.of_nat (length (cache.failedPairs st))
     = cache.totalPairs st
  /\ cache.totalPairs st = 20.
Proof.
  intros pairs answers st. subst st answers.
  rewrite refreshAllRates_sweep. fold pairs.
  assert (length pairs = 20%nat) as Hlen20 by reflexivity. clearbody pairs.
  pose proof (sweep_failedPairs pairs (cache.mkStats 0 0 []) w) as Hfail.
  pose proof (sweep_spec pairs (cache.mkStats 0 0 []) w) as H.
  destruct (providerRun (globals w) pairs (provider w)) as [answers pEnd].
  destruct (sweep pairs (cache.mkStats 0 0 []) w) as [st w'].
  destruct H as (_ & _ & _ & _ & Hlen & Htot & Hsucc & _).
  cbn [fst snd cache.successfulUpdates cache.totalPairs cache.failedPairs app]
    in Hfail, Htot, Hsucc |- *.
  split; [exact Hfail|].
  pose proof (failedIdentifiers_length _ _ Hlen) as Hsum.
  rewrite Hfail, Hsucc, Htot, Hlen20 in *. split; lia.
Qed.

(** X11.  A pair refreshed with success is served from the table: after a
    sweep in which the fetch for the pair of the normal forms of two
    supported codes gave a rate, a conversion between the two codes, in any
    spelling and without a date, returns the amount times that rate and
    leaves the state as it is (the provider is not called). *)
Theorem refreshed_pair_served_from_cache
    {P : Type} {exchangeAPIClient : api.ExchangeRateAPIClient P}
    (from to : string) (amt rate : float) (i : nat) (w : World P) :
  config.IsSupportedCurrency from = true ->
  config.IsSupportedCurrency to = true ->
  PrimFloat.ltb amt 0 = false ->
  sweepPairs config.GetSupportedCurrencies !! i = Some (normalize from, normalize to) ->
  (providerRun (globals w) (sweepPairs config.GetSupportedCurrencies) (provider w)).1 !! i
  = Some (Ok rate) ->
  let w' := (cache.refreshAllRates w).2 in
  services.ConvertCurrencyAmount from to amt "" w' = (Ok (PrimFloat.mul amt rate), w').
Proof.
  intros Hf Ht Ha Hi Hans w'. subst w'.
  assert (from <> to) as Hne.
  { intros ->. apply list_elem_of_lookup_2 in Hi.
    apply sweepPairs_all_ordered_pairs in Hi as (_ & _ & Hd). now apply Hd. }
  pose proof (sweep_spec (sweepPairs config.GetSupportedCurrencies)
                (cache.mkStats 0 0 []) w) as H.
  rewrite refreshAllRates_sweep.
  destruct (providerRun (globals w) (sweepPairs config.GetSupportedCurrencies) (provider w))
    as [answers pEnd].
  destruct (sweep (sweepPairs config.GetSupportedCurrencies) (cache.mkStats 0 0 []) w)
    as [st w'].
  destruct H as (_ & _ & _ & _ & _ & _ & _ & _ & Hset).
  destruct (Hset supported_keys_distinct i _ rate Hi Hans) as [t Hentry].
  unfold pairKey in Hentry. simpl in Hentry. rewrite buildRateKey_normalize in Hentry.
  simpl. rewrite (ConvertCurrencyAmount_resolves _ _ _ _ _ Hf Ht Ha Hne).
  now rewrite (latest_hit _ _ _ _ Hentry).
Qed.

Lemma refreshed_pair_served_from_cache_witness :
  let w := freshWorld (replicate 20 (Ok 0.5%float)) noon_2025_06_15 in
  config.IsSupportedCurrency " usd" = true
  /\ config.IsSupportedCurrency "eur" = true
  /\ PrimFloat.ltb 100 0 = false
  /\ sweepPairs config.GetSupportedCurrencies !! 1%nat
     = Some (normalize " usd", normalize "eur")
  /\ (providerRun (globals w) (sweepPairs config.GetSupportedCurrencies) (provider w)).1
     !! 1%nat = Some (Ok 0.5%float)
  /\ services.ConvertCurrencyAmount " usd" "eur" 100 "" (cache.refreshAllRates w).2
     = (Ok (PrimFloat.mul 100 0.5), (cache.refreshAllRates w).2).
Proof.
  intros w.
  split; [reflexivity|]. split; [reflexivity|]. split; [reflexivity|].
  split; [reflexivity|]. split; [reflexivity|].
  apply (refreshed_pair_served_from_cache " usd" "eur" 100 0.5 1 w); reflexivity.
Defined.

(** ** The statistics of the table *)

Lemma statsLoop_bounds (entries : list rateEntry) (oldest newest : Z) :
  let '(o, n) := cache.statsLoop entries false oldest newest in
  o <= oldest /\ newest <= n
  /\ (forall e, e ∈ entries -> o <= lastUpdated e <= n)
  /\ (o = oldest \/ exists e, e ∈ entries /\ lastUpdated e = o)
  /\ (n = newest \/ exists e, e ∈ entries /\ lastUpdated e = n).
Proof.
  revert oldest newest. induction entries as [|entry rest IH]; intros oldest newest; simpl.
  - split; [lia|]. split; [lia|]. split; [|split; now left].
    intros e He. now apply not_elem_of_nil in He.
  - unfold gotime.Before, gotime.After.
    set (o1 := if lastUpdated entry <? oldest then lastUpdated entry else oldest).
    set (n1 := if newest <? lastUpdated entry then lastUpdated entry else newest).
    assert (o1 <= oldest /\ o1 <= lastUpdated entry
            /\ (o1 = oldest \/ o1 = lastUpdated entry)) as (Ho1 & Ho2 & Ho3)
      by (subst o1; destruct (Z.ltb_spec (lastUpdated entry) oldest); lia).
    assert (newest <= n1 /\ lastUpdated entry <= n1
            /\ (n1 = newest \/ n1 = lastUpdated entry)) as (Hn1 & Hn2 & Hn3)
      by (subst n1; destruct (Z.ltb_spec newest (lastUpdated entry)); lia).
    clearbody o1 n1. specialize (IH o1 n1).
    destruct (cache.statsLoop rest false o1 n1) as [o n].
    destruct IH as (Ho & Hn & Hall & Hoatt & Hnatt).
    split; [lia|]. split; [lia|]. split; [|split].
    + intros e He. apply elem_of_cons in He as [->|He]; [lia | now apply Hall].
    + destruct Hoatt as [->|(e & He & Heq)].
      * destruct Ho3 as [->| ->]; [now left|]. right. exists entry.
        split; [apply list_elem_of_here | reflexivity].
      * right. exists e. split; [now apply list_elem_of_further | exact Heq].
    + destruct Hnatt as [->|(e & He & Heq)].
      * destruct Hn3 as [->| ->]; [now left|]. right. exists entry.
        split; [apply list_elem_of_here | reflexivity].
      * right. exists e. split; [now apply list_elem_of_further | exact Heq].
Qed.

(** X12.  [GetCacheStats] does not depend on the order in which the map
    is ranged over.  For every order of the entries, "total_pairs" is the
    number of entries; for an empty table the two dates are absent; for a
    table with entries "oldest_update" is the least and "newest_update"
    the greatest update time of an entry, each one the time of some
    entry. *)
Theorem GetCacheStats_any_order
    {P : Type} (w : World P) (order : list (string * rateEntry)) :
  order ≡ₚ map_to_list (rateData w) ->
  let st := cache.GetCacheStatsOver order in
  st = (cache.GetCacheStats w).1
  /\ cache.total_pairs st = Z.of_nat (size (rateData w))
  /\ (rateData w = ∅ ->
      cache.oldest_update st = None /\ cache.newest_update st = None)
  /\ (rateData w <> ∅ ->
      exists o n,
        cache.oldest_update st = Some o /\ cache.newest_update st = Some n
        /\ (forall key entry, rateData w !! key = Some entry -> o <= lastUpdated entry <= n)
        /\ (exists key entry, rateData w !! key = Some entry /\ lastUpdated entry = o)
        /\ (exists key entry, rateData w !! key = Some entry /\ lastUpdated entry = n)).
Proof.
  assert (forall order : list (string * rateEntry),
             order ≡ₚ map_to_list (rateData w) ->
             cache.total_pairs (cache.GetCacheStatsOver order) = Z.of_nat (size (rateData w))
             /\ (rateData w = ∅ ->
                 cache.oldest_update (cache.GetCacheStatsOver order) = None
                 /\ cache.newest_update (cache.GetCacheStatsOver order) = None)
             /\ (rateData w <> ∅ ->
                 exists o n,
                   cache.oldest_update (cache.GetCacheStatsOver order) = Some o
                   /\ cache.newest_update (cache.GetCacheStatsOver order) = Some n
                   /\ (forall key entry, rateData w !! key = Some entry ->
                                         o <= lastUpdated entry <= n)
                   /\ (exists key entry, rateData w !! key = Some entry
                                         /\ lastUpdated entry = o)
                   /\ (exists key entry, rateData w !! key = Some entry
                                         /\ lastUpdated entry = n))) as Hspec.
  { intros l Hperm.
    assert (length l = size (rateData w)) as Hlen
      by (rewrite Hperm; apply length_map_to_list).
    assert (forall key entry, (key, entry) ∈ l <-> rateData w !! key = Some entry) as Hmem
      by (intros key entry; rewrite Hperm; apply elem_of_map_to_list).
    unfold cache.GetCacheStatsOver. rewrite Hlen.
    split; [destruct (0 <? Z.of_nat (size (rateData w)));
            [destruct (cache.statsLoop (snd <$> l) true cache.zeroTime cache.zeroTime)|];
            reflexivity|].
    split.
    - intros Hempty. rewrite Hempty, map_size_empty. now split.
    - intros Hne. apply map_size_non_empty_iff in Hne.
      replace (0 <? Z.of_nat (size (rateData w))) with true
        by (symmetry; apply Z.ltb_lt; lia).
      destruct l as [|[k0 e0] rest]; [simpl in Hlen; lia|]. simpl.
      change (list_fmap _ _ snd rest) with (snd <$> rest).
      pose proof (statsLoop_bounds (snd <$> rest) (lastUpdated e0) (lastUpdated e0)) as H.
      destruct (cache.statsLoop (snd <$> rest) false (lastUpdated e0) (lastUpdated e0))
        as [o n].
      destruct H as (Ho & Hn & Hall & Hoatt & Hnatt). simpl.
      exists o, n. split; [reflexivity|]. split; [reflexivity|].
      assert (forall e, e ∈ snd <$> rest -> exists key, rateData w !! key = Some e) as Hrest.
      { intros e He. apply list_elem_of_fmap in He as ([k e'] & -> & Hin).
        exists k. apply Hmem. now apply list_elem_of_further. }
      split; [|split].
      + intros key entry Hentry. apply Hmem in Hentry.
        apply elem_of_cons in Hentry as [[= -> ->]|Hin]; [lia|].
        apply Hall. apply list_elem_of_fmap. now exists (key, entry).
      + destruct Hoatt as [->|(e & He & Heq)].
        * exists k0, e0. split; [apply Hmem, list_elem_of_here | reflexivity].
        * destruct (Hrest e He) as [key Hkey]. now exists key, e.
      + destruct Hnatt as [->|(e & He & Heq)].
        * exists k0, e0. split; [apply Hmem, list_elem_of_here | reflexivity].
        * destruct (Hrest e He) as [key Hkey]. now exists key, e. }
  intros Hperm st. subst st. split; [|exact (Hspec order Hperm)].
  destruct (Hspec order Hperm) as (Ht & He & Hn).
  destruct (Hspec (map_to_list (rateData w)) (reflexivity _)) as (Ht' & He' & Hn').
  unfold cache.GetCacheStats. simpl.
  destruct (cache.GetCacheStatsOver order) as [t1 o1 n1].
  destruct (cache.GetCacheStatsOver (map_to_list (rateData w))) as [t2 o2 n2].
  simpl in *. subst t1 t2.
  destruct (decide (rateData w = ∅)) as [Hempty|Hne].
  - destruct (He Hempty) as [-> ->]. destruct (He' Hempty) as [-> ->]. reflexivity.
  - destruct (Hn Hne) as (o & n & -> & -> & Hb & (ko & eo & Hko & Heo) & (kn & en & Hkn & Hen)).
    destruct (Hn' Hne)
      as (o' & n' & -> & -> & Hb' & (ko' & eo' & Hko' & Heo') & (kn' & en' & Hkn' & Hen')).
    pose proof (Hb _ _ Hko'). pose proof (Hb' _ _ Hko).
    pose proof (Hb _ _ Hkn'). pose proof (Hb' _ _ Hkn).
    assert (o = o') as -> by lia. assert (n = n') as -> by lia. reflexivity.
Qed.

Lemma GetCacheStats_any_order_witness :
  let w := (cache.SetRate "USD" "EUR" 0.5
              (cache.SetRate "USD" "GBP" 0.25 (freshWorld [] noon_2025_06_15)).2).2 in
  let order := [("USD-EUR", mkRateEntry 0.5 (noon_2025_06_15 + 1));
                ("USD-GBP", mkRateEntry 0.25 noon_2025_06_15)] in
  order ≡ₚ map_to_list (rateData w)
  /\ cache.GetCacheStatsOver order = (cache.GetCacheStats w).1.
Proof.
  intros w order.
  assert (rateData w
          = <["USD-EUR" := mkRateEntry 0.5 (noon_2025_06_15 + 1)]>
              (<["USD-GBP" := mkRateEntry 0.25 noon_2025_06_15]> ∅)) as Htable
    by reflexivity.
  assert (order ≡ₚ map_to_list (rateData w)) as Hperm.
  { apply NoDup_Permutation.
    - apply NoDup_cons. split; [|apply NoDup_singleton].
      rewrite list_elem_of_singleton. discriminate.
    - apply NoDup_map_to_list.
    - intros [k e]. rewrite elem_of_map_to_list, Htable. subst order.
      rewrite !elem_of_cons, elem_of_nil.
      destruct (decide (k = "USD-EUR")) as [->|H1].
      + rewrite lookup_insert_eq. split.
        * intros [[= <-]|[[=]|[]]]. reflexivity.
        * intros [= <-]. now left.
      + rewrite lookup_insert_ne by congruence.
        destruct (decide (k = "USD-GBP")) as [->|H2].
        * rewrite lookup_insert_eq. split.
          -- intros [[=]|[[= <-]|[]]]. reflexivity.
          -- intros [= <-]. right. now left.
        * rewrite lookup_insert_ne by congruence. rewrite lookup_empty.
          split; [|discriminate].
          intros [[= -> _]|[[= -> _]|[]]]; congruence. }
  split; [exact Hperm|].
  exact (proj1 (GetCacheStats_any_order w order Hperm)).
Defined.

(** ** The configuration read from the environment *)

Lemma getEnv_nonempty (env : config.Environ) (key defaultValue : string) :
  defaultValue <> "" -> config.getEnv env key defaultValue <> "".
Proof.
  intros Hd. unfold config.getEnv.
  destruct (String.eqb (env key) "") eqn:E; simpl; [exact Hd|].
  now apply String.eqb_neq.
Qed.

(** X13.  [initializeGlobalConfig] never takes the fatal exit: in every
    environment it yields a configuration whose API key and base address
    are not empty.  A variable set to the empty string counts as not set:
    the key and the address fall back to the built-in values, and the
    lookback to 90 days. *)
Theorem initializeGlobalConfig_never_fatal (env : config.Environ) :
  exists g,
    config.initializeGlobalConfig env = Some g
    /\ config.ExchangeRateAPIKey g <> ""
    /\ config.ExternalAPIBaseURL g <> ""
    /\ (env "EXCHANGE_API_KEY" = "" ->
        config.ExchangeRateAPIKey g = config.ExchangeRateAPIKey config.defaultGlobals)
    /\ (env "EXCHANGE_API_BASE_URL" = "" ->
        config.ExternalAPIBaseURL g = config.ExternalAPIBaseURL config.defaultGlobals)
    /\ (env "MAX_HISTORICAL_DAYS" = "" -> config.MaxHistoricalDays g = 90).
Proof.
  unfold config.initializeGlobalConfig.
  set (key := config.getEnv env "EXCHANGE_API_KEY" "dc07747379a8a53ee8d3243c").
  assert (key <> "") as Hkey by (apply getEnv_nonempty; discriminate).
  destruct (String.eqb key "") eqn:E; [now apply String.eqb_eq in E|].
  eexists. split; [reflexivity|]. simpl.
  split; [exact Hkey|]. split; [apply getEnv_nonempty; discriminate|].
  subst key. unfold config.getEnv, config.getIntEnv.
  split; [|split]; intros ->; reflexivity.
Qed.

(** The lookback takes whole numbers, with a sign or without, and keeps
    the default for anything else. *)
Example lookback_from_environment :
  let env value : config.Environ :=
    fun key => if String.eqb key "MAX_HISTORICAL_DAYS" then value else "" in
  config.MaxHistoricalDays <$> config.initializeGlobalConfig (env "30") = Some 30
  /\ config.MaxHistoricalDays <$> config.initializeGlobalConfig (env "-1") = Some (-1)
  /\ config.MaxHistoricalDays <$> config.initializeGlobalConfig (env "+007") = Some 7
  /\ config.MaxHistoricalDays <$> config.initializeGlobalConfig (env "30d") = Some 90
  /\ config.MaxHistoricalDays <$> config.initializeGlobalConfig (env "-") = Some 90
  /\ config.MaxHistoricalDays <$> config.initializeGlobalConfig (env " 30") = Some 90
  /\ config.MaxHistoricalDays <$> config.initializeGlobalConfig (env "9223372036854775807")
     = Some 9223372036854775807
  /\ config.MaxHistoricalDays <$> config.initializeGlobalConfig (env "9223372036854775808")
     = Some 90.
Proof. vm_compute. repeat split; reflexivity. Qed.

(** ** [utils.Contains] *)

Lemma containsLoop_shift (k : nat) (i : Z) (c : ascii) (s sub : string) :
  0 <= i ->
  utils.containsLoop k (i + 1) (String c s) sub = utils.containsLoop k i s sub.
Proof.
  revert i. induction k as [|k IH]; intros i Hi; [reflexivity|].
  cbn [utils.containsLoop String.length].
  assert ((i + 1 <=? Z.of_nat (S (String.length s)) - Z.of_nat (String.length sub))
          = (i <=? Z.of_nat (String.length s) - Z.of_nat (String.length sub))) as ->
    by (destruct (Z.leb_spec (i + 1) (Z.of_nat (S (String.length s))
                                      - Z.of_nat (String.length sub)));
        destruct (Z.leb_spec i (Z.of_nat (String.length s)
                                - Z.of_nat (String.length sub))); lia).
  replace (Z.to_nat (i + 1)) with (S (Z.to_nat i)) by lia.
  cbn [substring]. rewrite IH by lia. reflexivity.
Qed.

Lemma substring_prefix (sub str : string) :
  substring 0 (String.length sub) str = sub <-> exists post, str = sub ++ post.
Proof.
  revert str. induction sub as [|c sub IH]; intros str; simpl.
  - split; [intros _; now exists str | intros _; now destruct str].
  - destruct str as [|c' str]; simpl.
    + split; [discriminate | intros [post H]; discriminate].
    + split.
      * intros [= -> H]. apply IH in H as [post ->]. now exists post.
      * intros [post [= -> ->]]. f_equal. apply IH. now exists post.
Qed.

Lemma append_length (a b : string) :
  String.length (a ++ b) = (String.length a + String.length b)%nat.
Proof. induction a as [|c a IH]; simpl; [reflexivity | now rewrite IH]. Qed.

Lemma containsLoop_S (k : nat) (i : Z) (str sub : string) :
  utils.containsLoop (S k) i str sub
  = if i <=? Z.of_nat (String.length str) - Z.of_nat (String.length sub) then
      if String.eqb (substring (Z.to_nat i) (String.length sub) str) sub then true
      else utils.containsLoop k (i + 1) str sub
    else false.
Proof. reflexivity. Qed.

Lemma Contains_cons (c : ascii) (s sub : string) :
  utils.Contains (String c s) sub
  = String.eqb (substring 0 (String.length sub) (String c s)) sub || utils.Contains s sub.
Proof.
  unfold utils.Contains.
  change (String.length (String c s)) with (S (String.length s)).
  rewrite (containsLoop_S (S (String.length s)) 0 (String c s) sub).
  change (Z.to_nat 0) with 0%nat.
  rewrite containsLoop_shift by lia.
  change (String.length (String c s)) with (S (String.length s)).
  destruct (String.eqb (substring 0 (String.length sub) (String c s)) sub) eqn:E.
  - apply String.eqb_eq in E. apply substring_prefix in E as [post E].
    apply (f_equal String.length) in E. rewrite append_length in E.
    change (String.length (String c s)) with (S (String.length s)) in E.
    destruct (Z.leb_spec 0 (Z.of_nat (S (String.length s))
                            - Z.of_nat (String.length sub))) as [_|H]; [reflexivity | lia].
  - cbn [orb].
    destruct (Z.leb_spec 0 (Z.of_nat (S (String.length s))
                            - Z.of_nat (String.length sub))) as [_|H]; [reflexivity|].
    rewrite containsLoop_S.
    destruct (Z.leb_spec 0 (Z.of_nat (String.length s) - Z.of_nat (String.length sub)));
      [lia | reflexivity].
Qed.

Lemma Contains_nil (sub : string) :
  utils.Contains "" sub = String.eqb sub "".
Proof. destruct sub; reflexivity. Qed.

Lemma Contains_iff (str sub : string) :
  utils.Contains str sub = true <-> exists pre post, str = pre ++ sub ++ post.
Proof.
  induction str as [|c s IH].
  - rewrite Contains_nil. split.
    + intros H. apply String.eqb_eq in H as ->. now exists "", "".
    + intros (pre & post & H). destruct pre; [|discriminate].
      destruct sub; [reflexivity | discriminate].
  - rewrite Contains_cons, orb_true_iff, IH. split.
    + intros [H|(pre & post & ->)].
      * apply String.eqb_eq, substring_prefix in H as [post H]. now exists "", post.
      * now exists (String c pre), post.
    + intros (pre & post & H). destruct pre as [|c' pre]; simpl in H.
      * left. apply String.eqb_eq, substring_prefix. now exists post.
      * injection H as -> ->. right. now exists pre, post.
Qed.

(** X14.  [Contains str sub] holds exactly when [sub] occurs in [str]:
    [str] is some text, then [sub], then some text.  In particular the
    empty [sub] occurs in every string, and a [sub] longer than [str] in
    none (the loop does not run). *)
Theorem Contains_occurs (str sub : string) :
  (utils.Contains str sub = true <-> exists pre post, str = pre ++ sub ++ post)
  /\ utils.Contains str "" = true
  /\ ((String.length str < String.length sub)%nat -> utils.Contains str sub = false).
Proof.
  split; [apply Contains_iff|]. split.
  - apply Contains_iff. now exists "", str.
  - intros Hlen. apply not_true_is_false. intros H.
    apply Contains_iff in H as (pre & post & ->).
    rewrite !append_length in Hlen. lia.
Qed.

Example Contains_edges :
  utils.Contains "" "" = true /\ utils.Contains "abc" "" = true
  /\ utils.Contains "ab" "abc" = false /\ utils.Contains "xabcx" "abc" = true
  /\ utils.Contains "abab" "bab" = true /\ utils.Contains "abc" "ac" = false.
Proof. vm_compute. repeat split; reflexivity. Qed.

(** ** The exchange handler *)

Ltac listed :=
  apply list_elem_of_In; cbv [badRequestWords unavailableWords In]; auto 10.

Section handler_facts.
Context {P : Type} {apiClient : api.ExchangeRateAPIClient P}.
Variable formatFloat : float -> string.
Variable ParseFloat : string -> option float.

(** X15.  A request that leaves a required parameter empty is answered
    with 400 and "missing required parameter" naming the first such
    parameter (from, to, then amount or date), before the amount is parsed
    and without a call of the service: the state is left as it was.  So
    the service never gets an empty date from [GetHistoricalRate]. *)
Theorem missing_parameter_is_400 (query : string -> string) (name : string) (w : World P) :
  (firstMissing ["from"; "to"; "amount"] query = Some name ->
   handlers.Convert formatFloat ParseFloat query w
   = (utils.ErrorResp 400 ("missing required parameter: " ++ name), w))
  /\ (firstMissing ["from"; "to"] query = Some name ->
      handlers.GetLatestRate formatFloat query w
      = (utils.ErrorResp 400 ("missing required parameter: " ++ name), w))
  /\ (firstMissing ["from"; "to"; "date"] query = Some name ->
      handlers.GetHistoricalRate formatFloat query w
      = (utils.ErrorResp 400 ("missing required parameter: " ++ name), w)).
Proof.
  unfold handlers.Convert, handlers.GetLatestRate, handlers.GetHistoricalRate. simpl.
  destruct (String.eqb (query "from") ""); [repeat split; intros [= <-]; reflexivity|].
  destruct (String.eqb (query "to") ""); [repeat split; intros [= <-]; reflexivity|].
  split; [|split].
  - destruct (String.eqb (query "amount") ""); [intros [= <-]; reflexivity | discriminate].
  - discriminate.
  - destruct (String.eqb (query "date") ""); [intros [= <-]; reflexivity | discriminate].
Qed.

Lemma handle_bad_request_word (err : error) :
  freeOf badRequestWords (errorMessage formatFloat err) = false ->
  handlers.handleServiceError formatFloat err
  = utils.ErrorResp 400 (errorMessage formatFloat err).
Proof.
  unfold freeOf, badRequestWords, handlers.handleServiceError. simpl.
  destruct (utils.Contains _ "unsupported"); [reflexivity|].
  destruct (utils.Contains _ "invalid"); [reflexivity|].
  destruct (utils.Contains _ "negative"); [reflexivity|].
  destruct (utils.Contains _ "future"); [reflexivity|].
  destruct (utils.Contains _ "too far"); [reflexivity|].
  destruct (utils.Contains _ "format"); [reflexivity|].
  discriminate.
Qed.

Lemma freeOf_false (words : list string) (msg word : string) :
  word ∈ words -> utils.Contains msg word = true -> freeOf words msg = false.
Proof.
  intros Hin Hc. unfold freeOf. apply not_true_is_false. intros H.
  rewrite forallb_forall in H. apply list_elem_of_In in Hin.
  specialize (H word Hin). now rewrite Hc in H.
Qed.

(** X16.  Every refusal of the service (an unsupported code, a negative
    amount, a date that is malformed, in the future or too old) is
    answered with 400 and the text of the error. *)
Theorem refusals_are_400 (err : error) :
  refusal err = true ->
  handlers.handleServiceError formatFloat err
  = utils.ErrorResp 400 (errorMessage formatFloat err).
Proof.
  intros Href. apply handle_bad_request_word.
  destruct err as [| code | code | amt | cause | | | dateStr | dateStr | maxDays
                   | | | | | | |]; cbn [refusal] in Href; try discriminate Href;
    cbn [errorMessage].
  - apply (freeOf_false _ _ "unsupported"); [listed|].
    apply Contains_iff. now exists "", (" source currency: " ++ code).
  - apply (freeOf_false _ _ "unsupported"); [listed|].
    apply Contains_iff. now exists "", (" target currency: " ++ code).
  - apply (freeOf_false _ _ "negative"); [listed|].
    apply Contains_iff. now exists "amount cannot be ", (": " ++ formatFloat amt).
  - destruct cause; cbn [refusal] in Href; try discriminate Href; cbn [errorMessage].
    + apply (freeOf_false _ _ "invalid"); [listed|].
      apply Contains_iff.
      now exists "failed to get exchange rate: ",
        (" date format, expected YYYY-MM-DD: " ++ dateStr).
    + apply (freeOf_false _ _ "future"); [listed|].
      apply Contains_iff.
      now exists "failed to get exchange rate: date cannot be in the ", (": " ++ dateStr).
    + apply (freeOf_false _ _ "too far"); [listed|].
      apply Contains_iff.
      now exists "failed to get exchange rate: date is ",
        (" in the past, maximum " ++ formatInt maxDays ++ " days allowed").
  - apply (freeOf_false _ _ "invalid"); [listed|].
    apply Contains_iff. now exists "", (" date format, expected YYYY-MM-DD: " ++ dateStr).
  - apply (freeOf_false _ _ "future"); [listed|].
    apply Contains_iff. now exists "date cannot be in the ", (": " ++ dateStr).
  - apply (freeOf_false _ _ "too far"); [listed|].
    apply Contains_iff.
    now exists "date is ", (" in the past, maximum " ++ formatInt maxDays ++ " days allowed").
Qed.

Lemma handle_unavailable (err : error) :
  freeOf badRequestWords (errorMessage formatFloat err) = true ->
  freeOf unavailableWords (errorMessage formatFloat err) = false ->
  handlers.handleServiceError formatFloat err
  = utils.ErrorResp 503 "exchange rate service temporarily unavailable".
Proof.
  unfold freeOf, badRequestWords, unavailableWords, handlers.handleServiceError. simpl.
  destruct (utils.Contains _ "unsupported"); [discriminate|].
  destruct (utils.Contains _ "invalid"); [discriminate|].
  destruct (utils.Contains _ "negative"); [discriminate|].
  destruct (utils.Contains _ "future"); [discriminate|].
  destruct (utils.Contains _ "too far"); [discriminate|].
  destruct (utils.Contains _ "format"); [discriminate|].
  intros _.
  destruct (utils.Contains _ "api request failed"); [reflexivity|].
  destruct (utils.Contains _ "failed to fetch"); [reflexivity | discriminate].
Qed.

(** X17.  A failure of the provider on the historical path is answered
    with 503 "exchange rate service temporarily unavailable", unless the
    text of the error holds one of the words unsupported, invalid,
    negative, future, too far, format: then the answer is 400 with the
    text.  It is never 500. *)
Theorem historical_provider_failure_status (cause : error) :
  let err := HistoricalFetchFailed cause in
  handlers.handleServiceError formatFloat err
  = if freeOf badRequestWords (errorMessage formatFloat err)
    then utils.ErrorResp 503 "exchange rate service temporarily unavailable"
    else utils.ErrorResp 400 (errorMessage formatFloat err).
Proof.
  intros err.
  destruct (freeOf badRequestWords (errorMessage formatFloat err)) eqn:Hfree;
    [|now apply handle_bad_request_word].
  apply handle_unavailable; [exact Hfree|].
  apply (freeOf_false _ _ "failed to fetch"); [listed|].
  apply Contains_iff. subst err. cbn [errorMessage].
  now exists "", (" historical rate: " ++ errorMessage formatFloat cause).
Qed.

End handler_facts.

Lemma missing_parameter_is_400_witness :
  let query : string -> string := fun name => if String.eqb name "from" then "USD" else "" in
  firstMissing ["from"; "to"; "date"] query = Some "to"
  /\ handlers.GetHistoricalRate toyFormatFloat query (freshWorld [] 0)
     = (utils.ErrorResp 400 ("missing required parameter: " ++ "to"), freshWorld [] 0).
Proof.
  intros query. split; [reflexivity|].
  exact (proj2 (proj2 (missing_parameter_is_400 toyFormatFloat toyParseFloat query "to"
                         (freshWorld [] 0))) eq_refl).
Defined.

Lemma refusals_are_400_witness :
  refusal (NegativeAmount (-1)) = true
  /\ handlers.handleServiceError toyFormatFloat (NegativeAmount (-1))
     = utils.ErrorResp 400 "amount cannot be negative: -1.000000".
Proof.
  split; [reflexivity|].
  exact (refusals_are_400 toyFormatFloat (NegativeAmount (-1)) eq_refl).
Defined.

Lemma mismatch_no_prefix (q word m : string) :
  mismatch q word = true ->
  String.eqb (substring 0 (String.length word) (q ++ m)) word = false.
Proof.
  revert word. induction q as [|a q IH]; intros [|b word] H; simpl in *; try discriminate.
  revert H. destruct (Ascii.eqb_spec a b) as [->|Hab]; intros H; simpl;
    [now apply IH | reflexivity].
Qed.

Lemma Contains_skip (p word m : string) :
  clearOf p word = true -> utils.Contains (p ++ m) word = utils.Contains m word.
Proof.
  induction p as [|a p IH]; intros H; [reflexivity|].
  cbn [clearOf] in H. apply andb_true_iff in H as [Hm Hc].
  change (String a p ++ m) with (String a (p ++ m)). rewrite Contains_cons.
  change (String a (p ++ m)) with (String a p ++ m).
  rewrite (mismatch_no_prefix _ _ _ Hm). cbn [orb]. now apply IH.
Qed.

Lemma freeOf_skip (words : list string) (p m : string) :
  forallb (clearOf p) words = true -> freeOf words (p ++ m) = freeOf words m.
Proof.
  unfold freeOf. induction words as [|word words IH]; intros H; simpl in *; [reflexivity|].
  apply andb_true_iff in H as [H1 H2]. now rewrite (Contains_skip _ _ _ H1), IH.
Qed.

Section handler_faults.
Variable formatFloat : float -> string.

Lemma handle_free (err : error) :
  freeOf (badRequestWords ++ unavailableWords) (errorMessage formatFloat err) = true ->
  handlers.handleServiceError formatFloat err = utils.ErrorResp 500 "internal server error".
Proof.
  unfold freeOf, badRequestWords, unavailableWords, handlers.handleServiceError. simpl.
  destruct (utils.Contains _ "unsupported"); [discriminate|].
  destruct (utils.Contains _ "invalid"); [discriminate|].
  destruct (utils.Contains _ "negative"); [discriminate|].
  destruct (utils.Contains _ "future"); [discriminate|].
  destruct (utils.Contains _ "too far"); [discriminate|].
  destruct (utils.Contains _ "format"); [discriminate|].
  destruct (utils.Contains _ "api request failed"); [discriminate|].
  destruct (utils.Contains _ "failed to fetch"); [discriminate|].
  reflexivity.
Qed.

Lemma latest_failure_free (cause : error) :
  freeOf (badRequestWords ++ unavailableWords) (errorMessage formatFloat cause) = true ->
  handlers.handleServiceError formatFloat
    (ExchangeRateFailed (FailedAfterTries client.maxRetries cause))
  = utils.ErrorResp 500 "internal server error".
Proof.
  intros Hfree. apply handle_free.
  change (errorMessage formatFloat
            (ExchangeRateFailed (FailedAfterTries client.maxRetries cause)))
    with ("failed to get exchange rate: failed after 2 tries: "
          ++ errorMessage formatFloat cause).
  rewrite freeOf_skip; [exact Hfree | vm_compute; reflexivity].
Qed.

(** X18.  A failure of the provider on the latest path (a conversion
    without a date, after the two tries of the client) is answered with
    500 "internal server error", not with 503, when the text of the cause
    holds none of the eight words of the handler; and a rate that is not
    positive, the fault of the provider, is answered with 400 on both
    paths, because its text begins with "invalid". *)
Theorem latest_provider_failure_is_500 (cause : error) (rate : float) :
  (freeOf (badRequestWords ++ unavailableWords) (errorMessage formatFloat cause) = true ->
   handlers.handleServiceError formatFloat
     (ExchangeRateFailed (FailedAfterTries client.maxRetries cause))
   = utils.ErrorResp 500 "internal server error")
  /\ (let err := ExchangeRateFailed (FailedAfterTries client.maxRetries (InvalidRate rate)) in
      handlers.handleServiceError formatFloat err
      = utils.ErrorResp 400 (errorMessage formatFloat err))
  /\ (let err := HistoricalFetchFailed (FailedAfterTries client.maxRetries (InvalidRate rate)) in
      handlers.handleServiceError formatFloat err
      = utils.ErrorResp 400 (errorMessage formatFloat err)).
Proof.
  split; [apply latest_failure_free|split].
  - intros err. apply handle_bad_request_word.
    apply (freeOf_false _ _ "invalid"); [listed|].
    apply Contains_iff.
    now exists "failed to get exchange rate: failed after 2 tries: ",
      (" rate: " ++ formatFloat rate).
  - intros err. apply handle_bad_request_word.
    apply (freeOf_false _ _ "invalid"); [listed|].
    apply Contains_iff.
    now exists "failed to fetch historical rate: failed after 2 tries: ",
      (" rate: " ++ formatFloat rate).
Qed.

End handler_faults.

Lemma latest_provider_failure_is_500_witness :
  let cause := ApiHttpStatus 500 "upstream is down" in
  freeOf (badRequestWords ++ unavailableWords) (errorMessage toyFormatFloat cause) = true
  /\ handlers.handleServiceError toyFormatFloat
       (ExchangeRateFailed (FailedAfterTries client.maxRetries cause))
     = utils.ErrorResp 500 "internal server error".
Proof.
  intros cause. split; [vm_compute; reflexivity|].
  exact (proj1 (latest_provider_failure_is_500 toyFormatFloat cause 0) eq_refl).
Defined.

(** ** From the network to the answer *)

Lemma supported_nonempty (code : string) :
  config.IsSupportedCurrency code = true -> String.eqb code "" = false.
Proof. destruct code; [discriminate | reflexivity]. Qed.

(** X19.  An outage seen from outside.  The service is wired to the
    provider client; the two codes of a request for the latest rate are
    supported and differ, the table has no entry for the pair, and every
    request for the address of the pair fails in the transport with a text
    free of the eight words of the handler.  Then the answer is 500
    "internal server error", two requests were sent, and the table is as
    it was. *)
Theorem latest_rate_outage
    (json_Unmarshal : string -> result client.apiResp)
    (formatFloat : float -> string)
    (q : string -> string) (text : string) (w : World client.Net) :
  let url := config.ExternalAPIBaseURL (globals w)
             ++ client.buildEndpoint (globals w) (q "from") (q "to") "" in
  config.IsSupportedCurrency (q "from") = true ->
  config.IsSupportedCurrency (q "to") = true ->
  q "from" <> q "to" ->
  rateData w !! cache.buildRateKey (q "from") (q "to") = None ->
  (forall n, client.respond (provider w) n url = client.GetFailed (External text)) ->
  freeOf (badRequestWords ++ unavailableWords) text = true ->
  let '(resp, w') :=
    handlers.GetLatestRate (apiClient := client.RateClient json_Unmarshal) formatFloat q w in
  resp = utils.ErrorResp 500 "internal server error"
  /\ client.requests (provider w') = (client.requests (provider w) ++ [url; url])%list
  /\ rateData w' = rateData w.
Proof.
  intros url Hf Ht Hne Hmiss Hnet Hfree.
  unfold handlers.GetLatestRate.
  rewrite (supported_nonempty _ Hf), (supported_nonempty _ Ht). run.
  rewrite (ConvertCurrencyAmount_resolves (apiClient := client.RateClient json_Unmarshal)
             (q "from") (q "to") 1%float "" w Hf Ht eq_refl Hne).
  rewrite (latest_miss (apiClient := client.RateClient json_Unmarshal) _ _ _ Hmiss).
  unfold api.GetRate, client.RateClient, client.GetRate. simpl.
  unfold client.doAPICall at 1, client.Get. fold url. rewrite Hnet.
  unfold client.doAPICall, client.Get. simpl. fold url. rewrite Hnet. simpl.
  split; [|split; [now rewrite <- app_assoc | reflexivity]].
  apply (latest_failure_free formatFloat (HttpReqFailed (External text))).
  change (errorMessage formatFloat (HttpReqFailed (External text)))
    with ("http req failed: " ++ text).
  rewrite freeOf_skip; [exact Hfree | vm_compute; reflexivity].
Qed.

Lemma latest_rate_outage_witness :
  let q : string -> string :=
    fun name => if String.eqb name "from" then "USD"
                else if String.eqb name "to" then "EUR" else "" in
  let net := client.mkNet (fun _ _ => client.GetFailed (External "connection refused")) [] in
  let w := cache.NewExchangeRateCache config.defaultGlobals net (fun _ => 0) in
  let url := "https://v6.exchangerate-api.com/v6/dc07747379a8a53ee8d3243c/pair/USD/EUR/1" in
  let '(resp, w') :=
    handlers.GetLatestRate (apiClient := client.RateClient toyDecoder) toyFormatFloat q w in
  resp = utils.ErrorResp 500 "internal server error"
  /\ client.requests (provider w') = [url; url]
  /\ rateData w' = rateData w.
Proof.
  intros q net w url.
  apply (latest_rate_outage toyDecoder toyFormatFloat q "connection refused" w);
    [reflexivity | reflexivity | discriminate | reflexivity | reflexivity
     | vm_compute; reflexivity].
Defined.

(** X20.  The amount of a conversion between a supported code and itself
    comes back as the answer 200 whatever it is, as long as it is not
    below zero: as the JSON amount when it is finite, and, when it is not
    a number or infinite (the parser of the amount accepts both), as the
    status 200 with the text "Internal Server Error" for a body, because
    the status is written before the encoder fails.  The state is left as
    it was. *)
Theorem convert_same_code_answer
    {P : Type} {apiClient : api.ExchangeRateAPIClient P}
    (formatFloat : float -> string) (ParseFloat : string -> option float)
    (query : string -> string) (amt : float) (w : World P) :
  config.IsSupportedCurrency (query "from") = true ->
  query "to" = query "from" ->
  query "amount" <> "" ->
  ParseFloat (query "amount") = Some amt ->
  PrimFloat.ltb amt 0 = false ->
  handlers.Convert formatFloat ParseFloat query w
  = (if PrimFloat.is_finite amt
     then utils.mkResponse 200 (utils.JSON (utils.ConvertResponse amt))
     else utils.mkResponse 200 (utils.PlainText "Internal Server Error"), w).
Proof.
  intros Hf Hto Hamount Hparse Ha. unfold handlers.Convert.
  rewrite Hto, (supported_nonempty _ Hf).
  apply String.eqb_neq in Hamount. rewrite Hamount, Hparse. run.
  rewrite (ConvertCurrencyAmount_same_string _ _ _ _ Hf Ha).
  unfold utils.WriteJSON. simpl. reflexivity.
Qed.

Lemma convert_same_code_answer_witness :
  let query : string -> string :=
    fun name => if String.eqb name "amount" then "NaN" else "USD" in
  config.IsSupportedCurrency (query "from") = true
  /\ query "to" = query "from"
  /\ query "amount" <> ""
  /\ toyParseFloat (query "amount") = Some PrimFloat.nan
  /\ PrimFloat.ltb PrimFloat.nan 0 = false
  /\ handlers.Convert toyFormatFloat toyParseFloat query (freshWorld [] 0)
     = (utils.mkResponse 200 (utils.PlainText "Internal Server Error"), freshWorld [] 0).
Proof.
  intros query.
  split; [reflexivity|]. split; [reflexivity|]. split; [discriminate|].
  split; [reflexivity|]. split; [reflexivity|].
  apply (convert_same_code_answer toyFormatFloat toyParseFloat query PrimFloat.nan
           (freshWorld [] 0)); [reflexivity | reflexivity | discriminate | reflexivity
                               | reflexivity].
Defined.

(** ** The two loops of the sweep, for any list of codes *)

Lemma innerPairs_spec (i : nat) (fromCurrency a b : string) (rest : list string) (j : nat) :
  (a, b) ∈ innerPairs i fromCurrency j rest
  <-> a = fromCurrency /\ exists k, rest !! k = Some b /\ (j + k)%nat <> i.
Proof.
  revert j. induction rest as [|toCurrency rest IH]; intros j; simpl.
  - split; [intros H; now apply not_elem_of_nil in H | intros (_ & k & H & _); discriminate].
  - destruct (Nat.eqb_spec i j) as [->|Hij].
    + rewrite IH. split.
      * intros (-> & k & Hk & Hne). split; [reflexivity|]. exists (S k). split; [exact Hk | lia].
      * intros (-> & [|k] & Hk & Hne); [lia|]. split; [reflexivity|].
        exists k. split; [exact Hk | lia].
    + rewrite elem_of_cons, IH. split.
      * intros [[= -> ->]|(-> & k & Hk & Hne)].
        -- split; [reflexivity|]. exists 0%nat. split; [reflexivity | lia].
        -- split; [reflexivity|]. exists (S k). split; [exact Hk | lia].
      * intros (-> & [|k] & Hk & Hne).
        -- left. simpl in Hk. now injection Hk as ->.
        -- right. split; [reflexivity|]. exists k. split; [exact Hk | lia].
Qed.

Lemma outerPairs_spec (cs : list string) (a b : string) (rest : list string) (i : nat) :
  (a, b) ∈ outerPairs cs i rest
  <-> exists k k', rest !! k = Some a /\ cs !! k' = Some b /\ k' <> (i + k)%nat.
Proof.
  revert i. induction rest as [|fromCurrency rest IH]; intros i; simpl.
  - split; [intros H; now apply not_elem_of_nil in H | intros (k & k' & H & _); discriminate].
  - rewrite elem_of_app, innerPairs_spec, IH. split.
    + intros [(-> & k' & Hk' & Hne)|(k & k' & Hk & Hk' & Hne)].
      * exists 0%nat, k'. split; [reflexivity|]. split; [exact Hk' | simpl in Hne; lia].
      * exists (S k), k'. split; [exact Hk|]. split; [exact Hk' | lia].
    + intros ([|k] & k' & Hk & Hk' & Hne).
      * left. simpl in Hk. injection Hk as ->. split; [reflexivity|].
        exists k'. split; [exact Hk' | simpl; lia].
      * right. exists k, k'. split; [exact Hk|]. split; [exact Hk' | lia].
Qed.

(** X21.  The two nested loops of the sweep, over any list of codes, run
    the loop body for the pairs of entries at two different positions, and
    for no other pair; when no code is listed twice these are the ordered
    pairs of two different listed codes (a code listed twice would be
    fetched against itself). *)
Theorem sweep_visits_distinct_positions
    {P : Type} {exchangeAPIClient : api.ExchangeRateAPIClient P}
    (supportedCurrencies : list string) :
  (forall (st : cache.refreshStats) (w : World P),
      cache.outerLoop supportedCurrencies 0 supportedCurrencies st w
      = sweep (sweepPairs supportedCurrencies) st w)
  /\ (forall a b,
        (a, b) ∈ sweepPairs supportedCurrencies
        <-> exists i j, i <> j /\ supportedCurrencies !! i = Some a
                        /\ supportedCurrencies !! j = Some b)
  /\ (NoDup supportedCurrencies ->
      forall a b,
        (a, b) ∈ sweepPairs supportedCurrencies
        <-> a ∈ supportedCurrencies /\ b ∈ supportedCurrencies /\ a <> b).
Proof.
  assert (forall a b,
             (a, b) ∈ sweepPairs supportedCurrencies
             <-> exists i j, i <> j /\ supportedCurrencies !! i = Some a
                             /\ supportedCurrencies !! j = Some b) as Hpos.
  { intros a b. unfold sweepPairs. rewrite outerPairs_spec. split.
    - intros (k & k' & Hk & Hk' & Hne). exists k, k'. simpl in Hne. repeat split; auto.
    - intros (i & j & Hne & Hi & Hj). exists i, j. simpl. repeat split; auto. }
  split; [intros st w; apply outerLoop_sweep|]. split; [exact Hpos|].
  intros Hnd a b. rewrite Hpos. split.
  - intros (i & j & Hne & Hi & Hj).
    split; [now apply list_elem_of_lookup_2 in Hi|].
    split; [now apply list_elem_of_lookup_2 in Hj|].
    intros ->. apply Hne. exact (NoDup_lookup _ _ _ _ Hnd Hi Hj).
  - intros (Ha & Hb & Hne).
    apply list_elem_of_lookup_1 in Ha as [i Hi]. apply list_elem_of_lookup_1 in Hb as [j Hj].
    exists i, j. split; [|now split]. intros ->. congruence.
Qed.

Example sweep_with_repeated_code :
  sweepPairs ["USD"; "EUR"; "USD"]
  = [("USD", "EUR"); ("USD", "USD"); ("EUR", "USD"); ("EUR", "USD");
     ("USD", "USD"); ("USD", "EUR")].
Proof. reflexivity. Qed.

Lemma sweep_visits_distinct_positions_witness :
  NoDup config.SupportedCurrencyList
  /\ (("USD", "EUR") ∈ sweepPairs config.SupportedCurrencyList
      <-> "USD" ∈ config.SupportedCurrencyList /\ "EUR" ∈ config.SupportedCurrencyList
          /\ "USD" <> "EUR").
Proof.
  assert (NoDup config.SupportedCurrencyList) as Hnd
    by (apply (bool_decide_unpack _); vm_compute; exact I).
  split; [exact Hnd|].
  exact (proj2 (proj2 (sweep_visits_distinct_positions (P := list (result float))
                         config.SupportedCurrencyList)) Hnd "USD" "EUR").
Defined.

Lemma Contains_occurs_witness :
  (String.length "ab" < String.length "abc")%nat /\ utils.Contains "ab" "abc" = false.
Proof.
  assert (String.length "ab" < String.length "abc")%nat as Hlen by (simpl; lia).
  split; [exact Hlen|].
  exact (proj2 (proj2 (Contains_occurs "ab" "abc")) Hlen).
Defined.

Lemma initializeGlobalConfig_never_fatal_witness :
  let env : config.Environ := fun _ => "" in
  env "EXCHANGE_API_KEY" = ""
  /\ exists g, config.initializeGlobalConfig env = Some g
               /\ config.ExchangeRateAPIKey g
                  = config.ExchangeRateAPIKey config.defaultGlobals.
Proof.
  intros env. split; [reflexivity|].
  destruct (initializeGlobalConfig_never_fatal env) as (g & Hg & _ & _ & Hkey & _).
  exists g. split; [exact Hg | exact (Hkey eq_refl)].
Defined.
